(** * zahar-site: the Express server of [server.js]

    A shallow embedding of the request handlers of [server.js] (signup,
    login, logout, the two access gates, upload, upload listing and
    promote) together with the parts of the JavaScript run time that the
    handlers lean on: truthiness, property keys, strict equality, property
    lookup through the prototype chain of the object literal [users] and
    the TypeError of a key that cannot be converted,
    [String.prototype.replace] with [/\s+/g], number-to-string conversion
    and POSIX [path.basename].

    Layout: module [JS] holds the language-level helpers, module [Server]
    the state of the process and one function per route, module
    [Scenario] a few concrete runs.  The theorems follow the definitions:
    [JSFacts] on the string helpers, [Auth] on signup and login, [Gate] on
    the session store and the two gates, [Promotion] on promote, [Reach]
    on the reachable states and [Uploads] on the upload route.

    Not modelled: static file hosting, the header middlewares, and the
    interleaving of requests (each request is served in one step). *)

From Stdlib Require Import NArith List Ascii String DecimalN.
From stdpp Require Import gmap strings list fin_maps.

Local Open Scope N_scope.
Local Open Scope list_scope.

(* ===================================================================== *)
(** ** JavaScript values and string helpers                              *)
(* ===================================================================== *)

Module JS.

(** A JavaScript string is a sequence of UTF-16 code units. *)
Abbreviation jsstring := (list N).

(** Code units of an ASCII literal of the source text. *)
Definition u16 (s : string) : jsstring :=
  map (fun a => N.of_nat (nat_of_ascii a)) (list_ascii_of_string s).

(** The values a parsed request body ([express.json],
    [express.urlencoded] with [extended]) hands to the handlers for a
    field; [JUndefined] is an absent field.

    A number is represented by its canonical string, Number::toString,
    which determines it up to [===] (both zeros print as [0]).  An array
    or nested object is represented by what the handlers can observe of
    it, the outcome of converting it to a property key: [Some k] when
    [toString] gives [k] (["[object Object]"] for a plain object, the
    joined elements for an array), [None] when the conversion throws a
    TypeError, as for [{ toString: 1 }]. *)
Inductive jsval : Type :=
  | JUndefined
  | JNull
  | JBool (b : bool)
  | JNum (repr : jsstring)
  | JStr (s : jsstring)
  | JObject (key : option jsstring).

#[export] Instance jsval_eq_dec : EqDecision jsval.
Proof. solve_decision. Defined.

(** The number NaN, and the numbers that are falsy. *)
Definition is_nan (repr : jsstring) : bool := bool_decide (repr = u16 "NaN").
Definition is_zero (repr : jsstring) : bool := bool_decide (repr = u16 "0").

(** ToBoolean. *)
Definition truthy (v : jsval) : bool :=
  match v with
  | JUndefined | JNull => false
  | JBool b => b
  | JNum n => negb (is_zero n || is_nan n)
  | JStr [] => false
  | JStr (_ :: _) => true
  | JObject _ => true
  end.

(** ToPropertyKey, as evaluated by [users[username]]; [None] when the
    conversion throws. *)
Definition to_property_key (v : jsval) : option jsstring :=
  match v with
  | JUndefined => Some (u16 "undefined")
  | JNull => Some (u16 "null")
  | JBool true => Some (u16 "true")
  | JBool false => Some (u16 "false")
  | JNum n => Some n
  | JStr s => Some s
  | JObject k => k
  end.

(** [users[v]] throws a TypeError before any lookup. *)
Definition key_throws (v : jsval) : bool :=
  match to_property_key v with
  | Some _ => false
  | None => true
  end.

(** The key used by [users[username]], when the conversion gives one. *)
Definition to_key (v : jsval) : jsstring :=
  match to_property_key v with
  | Some k => k
  | None => []
  end.

(** [a === b], where [a] is a value kept from an earlier request and [b]
    a value of the request being served: primitives are compared by
    value (NaN equals nothing), while an array or object of one request
    is never the same reference as one of another request. *)
Definition strict_eq (a b : jsval) : bool :=
  match a, b with
  | JObject _, _ | _, JObject _ => false
  | JNum n, JNum m => bool_decide (n = m) && negb (is_nan n)
  | _, _ => bool_decide (a = b)
  end.


(** Number::toString for a non-negative integer below 10^21, which covers
    every value of [Date.now()]: plain decimal digits. *)
Fixpoint uint_digits (d : Decimal.uint) : jsstring :=
  match d with
  | Decimal.Nil => []
  | Decimal.D0 d => 48 :: uint_digits d
  | Decimal.D1 d => 49 :: uint_digits d
  | Decimal.D2 d => 50 :: uint_digits d
  | Decimal.D3 d => 51 :: uint_digits d
  | Decimal.D4 d => 52 :: uint_digits d
  | Decimal.D5 d => 53 :: uint_digits d
  | Decimal.D6 d => 54 :: uint_digits d
  | Decimal.D7 d => 55 :: uint_digits d
  | Decimal.D8 d => 56 :: uint_digits d
  | Decimal.D9 d => 57 :: uint_digits d
  end.

Definition number_to_string (n : N) : jsstring := uint_digits (N.to_uint n).

(** The class [\s] of a regular expression without the [u] flag:
    WhiteSpace and LineTerminator code units. *)
Definition is_space (c : N) : bool :=
  (9 <=? c) && (c <=? 13)            (* TAB LF VT FF CR *)
  || (c =? 32) || (c =? 160)         (* SP, NBSP *)
  || (c =? 5760)                     (* U+1680 *)
  || (8192 <=? c) && (c <=? 8202)    (* U+2000 .. U+200A *)
  || (c =? 8232) || (c =? 8233)      (* LS, PS *)
  || (c =? 8239) || (c =? 8287)      (* U+202F, U+205F *)
  || (c =? 12288) || (c =? 65279).   (* U+3000, U+FEFF *)

Definition underscore : N := 95.
Definition slash : N := 47.
Definition hyphen : N := 45.

(** [s.replace(/\s+/g, '_')]: scanning left to right, each greedy match of
    [\s+] is replaced by one underscore.  [in_run] tells that the previous
    code unit belonged to the match being consumed. *)
Fixpoint replace_ws_from (in_run : bool) (s : jsstring) : jsstring :=
  match s with
  | [] => []
  | c :: t =>
      if is_space c
      then (if in_run then replace_ws_from true t
            else underscore :: replace_ws_from true t)
      else c :: replace_ws_from false t
  end.

Definition replace_ws (s : jsstring) : jsstring := replace_ws_from false s.

(** POSIX [path.basename] of a path that does not end in a slash: the part
    after the last slash.  [acc] collects the segment being read. *)
Fixpoint basename_from (acc : jsstring) (p : jsstring) : jsstring :=
  match p with
  | [] => acc
  | c :: t => if c =? slash then basename_from [] t
              else basename_from (acc ++ [c]) t
  end.

Definition basename (p : jsstring) : jsstring := basename_from [] p.

(** [path.join(dir, name)] for a normalized [dir] and a last segment that
    needs no normalization. *)
Definition path_join (dir name : jsstring) : jsstring :=
  dir ++ slash :: name.

(** *** The naming rule in the words of the specification

    The maximal runs of a string: consecutive blocks of code units that
    are all whitespace or all not, neighbours being of different kinds. *)
Fixpoint runs (s : jsstring) : list (bool * jsstring) :=
  match s with
  | [] => []
  | c :: t =>
      match runs t with
      | (b, r) :: rest =>
          if Bool.eqb b (is_space c) then (b, c :: r) :: rest
          else (is_space c, [c]) :: (b, r) :: rest
      | [] => [(is_space c, [c])]
      end
  end.

(** Neighbouring blocks are of different kinds. *)
Fixpoint alternating (l : list (bool * jsstring)) : Prop :=
  match l with
  | x :: ((y :: _) as t) => fst x ≠ fst y ∧ alternating t
  | _ => True
  end.

Definition render_run (x : bool * jsstring) : jsstring :=
  if fst x then [underscore] else snd x.

(** The string in which every maximal run of whitespace is replaced by a
    single underscore. *)
Definition collapse_whitespace (s : jsstring) : jsstring :=
  concat (map render_run (runs s)).

End JS.

(* ===================================================================== *)
(** ** The server                                                        *)
(* ===================================================================== *)

Module Server.
Import JS.

(** The two role strings, ['user'] and ['admin']. *)
Inductive role_t : Type := RoleUser | RoleAdmin.

#[export] Instance role_eq_dec : EqDecision role_t.
Proof. solve_decision. Defined.

Definition role_string (r : role_t) : jsstring :=
  match r with RoleUser => u16 "user" | RoleAdmin => u16 "admin" end.

(** A record [{ password, role }] stored in [users]. *)
Record user_rec : Type := mkUser { password : jsval; role : role_t }.

(** The object [{ username, role }] kept in [req.session.user].  The
    default session store keeps [JSON.stringify(session)], so a role that
    was [undefined] at login is an absent property when the session is
    read back: [s_role = None]. *)
Record session_user : Type := mkSessionUser {
  s_username : jsval;
  s_role : option role_t
}.

Abbreviation sid := N.

(** The state of the process.  [users] holds the own properties of the
    object literal [users]; that object inherits from [Object.prototype],
    and the two fields after it record the only changes the handlers can
    make to the inherited objects: a [role] property set to ['admin'] on
    one of the inherited functions, or on [Object.prototype] itself. *)
Record state : Type := mkState {
  users : gmap jsstring user_rec;
  builtin_admin : gset jsstring;
  proto_admin : bool;
  sessions : gmap sid session_user;   (* express-session's store *)
  uploads : gmap jsstring N           (* uploads directory: name to content *)
}.

(** The function-valued properties of [Object.prototype]. *)
Definition builtin_names : list jsstring :=
  map u16 [ "constructor"; "__defineGetter__"; "__defineSetter__";
            "hasOwnProperty"; "__lookupGetter__"; "__lookupSetter__";
            "isPrototypeOf"; "propertyIsEnumerable"; "toString";
            "valueOf"; "toLocaleString" ]%string.

Definition proto_key : jsstring := u16 "__proto__".
Definition role_key : jsstring := u16 "role".

(** What [users[k]] can evaluate to, when it is not [undefined]. *)
Inductive target : Type :=
  | TOwn (k : jsstring)        (* the record stored under the own key k *)
  | TBuiltin (k : jsstring)    (* the function Object.prototype[k] *)
  | TObjectPrototype           (* Object.prototype, by the __proto__ getter *)
  | TAdminString.              (* 'admin', inherited from Object.prototype.role *)

(** [users[k]]: own property first, then the prototype chain. *)
Definition users_get (st : state) (k : jsstring) : option target :=
  match users st !! k with
  | Some _ => Some (TOwn k)
  | None =>
      if bool_decide (k = proto_key) then Some TObjectPrototype
      else if bool_decide (k ∈ builtin_names) then Some (TBuiltin k)
      else if bool_decide (k = role_key) && proto_admin st then Some TAdminString
      else None
  end.

(** The keys that [users] answers through its prototype chain. *)
Definition inherited_name (st : state) (k : jsstring) : bool :=
  bool_decide (k = proto_key) || bool_decide (k ∈ builtin_names)
  || bool_decide (k = role_key) && proto_admin st.

(** [u.password]: none of the inherited objects has such a property. *)
Definition get_password (st : state) (u : target) : jsval :=
  match u with
  | TOwn k => match users st !! k with
              | Some r => password r
              | None => JUndefined
              end
  | _ => JUndefined
  end.

(** [Object.prototype.role]. *)
Definition inherited_role (st : state) : option role_t :=
  if proto_admin st then Some RoleAdmin else None.

(** [u.role]; [None] is [undefined]. *)
Definition get_role (st : state) (u : target) : option role_t :=
  match u with
  | TOwn k => match users st !! k with
              | Some r => Some (role r)
              | None => inherited_role st
              end
  | TBuiltin k =>
      if bool_decide (k ∈ builtin_admin st) then Some RoleAdmin
      else inherited_role st
  | TObjectPrototype | TAdminString => inherited_role st
  end.

Definition make_admin (r : user_rec) : user_rec :=
  mkUser (password r) RoleAdmin.

(** [u.role = 'admin']; on the primitive string the assignment is dropped
    (the module is not in strict mode). *)
Definition set_role_admin (st : state) (u : target) : state :=
  match u with
  | TOwn k =>
      mkState (alter make_admin k (users st)) (builtin_admin st)
              (proto_admin st) (sessions st) (uploads st)
  | TBuiltin k =>
      mkState (users st) ({[ k ]} ∪ builtin_admin st)
              (proto_admin st) (sessions st) (uploads st)
  | TObjectPrototype =>
      mkState (users st) (builtin_admin st) true (sessions st) (uploads st)
  | TAdminString => st
  end.

(** [req.session.user = v], saved by the session middleware. *)
Definition set_session (st : state) (s : sid) (v : session_user) : state :=
  mkState (users st) (builtin_admin st) (proto_admin st)
          (<[ s := v ]> (sessions st)) (uploads st).

(** [users[k] = r].  Only reached when [users[k]] is falsy, so [k] is not
    ["__proto__"] and the assignment defines an own property. *)
Definition set_user (st : state) (k : jsstring) (r : user_rec) : state :=
  mkState (<[ k := r ]> (users st)) (builtin_admin st) (proto_admin st)
          (sessions st) (uploads st).

Definition set_uploads (st : state) (d : gmap jsstring N) : state :=
  mkState (users st) (builtin_admin st) (proto_admin st) (sessions st) d.

(** *** Responses *)

Inductive json_body : Type :=
  | BOk                                         (* { ok: true } *)
  | BOkFile (file name : jsstring)              (* { ok: true, file, name } *)
  | BOkUploads (l : list (jsstring * jsstring)) (* { ok: true, uploads } *)
  | BError (e : jsstring).                      (* { error: e } *)

(** The error codes of the multipart middleware that can arise here. *)
Inductive multer_code : Type := LIMIT_FILE_SIZE.

(** A response is either written by a handler with [res.status(s).json(b)]
    or, when a middleware passes an error on and the application (which
    registers no error-handling middleware) does not catch it, by the
    framework's default error handler: status 500 and a body that is not
    JSON. *)
Inductive response : Type :=
  | Json (status : N) (b : json_body)
  | DefaultError (e : multer_code)
  | Thrown.   (* a TypeError thrown inside a handler: caught by the
                 framework and answered by the same default handler *)

Definition http_status (r : response) : N :=
  match r with
  | Json s _ => s
  | DefaultError _ => 500
  | Thrown => 500
  end.

(** A structured error: a JSON body with a short code and an error status. *)
Definition structured_error (r : response) : bool :=
  match r with
  | Json s (BError _) => 400 <=? s
  | _ => false
  end.

(** The parsed body [req.body] of signup and login, when there is one:
    an object, of which the handlers read two fields. *)
Record body : Type := mkBody { b_username : jsval; b_password : jsval }.

(** *** POST /api/signup *)
Definition signup (st : state) (s : sid) (b : body) : state * response :=
  let username := b_username b in
  let password := b_password b in
  if negb (truthy username) || negb (truthy password)
  then (st, Json 400 (BError (u16 "missing")))
  else if key_throws username then (st, Thrown)
  else match users_get st (to_key username) with
       | Some _ => (st, Json 409 (BError (u16 "exists")))
       | None =>
           let st1 := set_user st (to_key username) (mkUser password RoleUser) in
           (set_session st1 s (mkSessionUser username (Some RoleUser)),
            Json 200 BOk)
       end.

(** *** POST /api/login *)
Definition login (st : state) (s : sid) (b : body) : state * response :=
  let username := b_username b in
  let password := b_password b in
  if key_throws username then (st, Thrown)
  else match users_get st (to_key username) with
       | None => (st, Json 401 (BError (u16 "invalid")))
       | Some u =>
           if negb (strict_eq (get_password st u) password)
           then (st, Json 401 (BError (u16 "invalid")))
           else (set_session st s (mkSessionUser username (get_role st u)),
                 Json 200 BOk)
       end.

(** *** POST /api/logout *)
Definition logout (st : state) (s : sid) : state * response :=
  (mkState (users st) (builtin_admin st) (proto_admin st)
           (delete s (sessions st)) (uploads st),
   Json 200 BOk).

(** [req.session.user]: the lookup of the session store. *)
Definition lookup (st : state) (s : sid) : option session_user :=
  sessions st !! s.

(** [req.session.user.role]: own property, else inherited. *)
Definition session_role (st : state) (u : session_user) : option role_t :=
  match s_role u with
  | Some r => Some r
  | None => inherited_role st
  end.

(** *** The gates *)
Definition authRequired (st : state) (s : sid) : bool :=
  match lookup st s with
  | Some _ => true
  | None => false
  end.

Definition adminRequired (st : state) (s : sid) : bool :=
  match lookup st s with
  | Some u => bool_decide (session_role st u = Some RoleAdmin)
  | None => false
  end.

Definition unauthorized : response := Json 401 (BError (u16 "unauthorized")).
Definition forbidden : response := Json 403 (BError (u16 "forbidden")).

(** *** POST /api/upload *)

(** The file part of the multipart field ["video"], as the multipart
    middleware presents it: [originalname] is the base name of the file
    name sent by the client, [size] the length of the stream. *)
Record upfile : Type := mkUpfile {
  originalname : jsstring;
  size : N;
  content : N
}.

(** [limits: { fileSize: 2 * 1024 * 1024 * 1024 }]. *)
Definition fileSize : N := 2 * 1024 * 1024 * 1024.

(** The [filename] callback of the disk storage:
    [Date.now() + '-' + file.originalname.replace(/\s+/g, '_')]. *)
Definition filename (now : N) (f : upfile) : jsstring :=
  number_to_string now ++ hyphen :: replace_ws (originalname f).

Inductive multer_result : Type :=
  | MNoFile                                          (* req.file undefined *)
  | MFile (st : state) (path : jsstring) (f : upfile)  (* req.file set *)
  | MError (st : state) (e : multer_code).           (* next(err) *)

Section Routes.

(** [path.join(__dirname, '..', 'uploads')]. *)
Variable uploadsDir : jsstring.

(** [upload.single('video')] with the disk storage above.  A part without
    a file name is skipped.  The stream is written to
    [path.join(uploadsDir, filename)], replacing a file of that name; when
    the stream reaches the limit the middleware unlinks what it wrote and
    passes the error on.  The directory is keyed by file name.

    The limit is reported once [fileSize] bytes have been read, as the
    current releases of the middleware do; releases built on the older
    multipart parser let a stream of exactly [fileSize] bytes pass.  The
    theorems below are stated so as to hold either way. *)
Definition upload_single (st : state) (now : N) (part : option upfile)
  : multer_result :=
  match part with
  | None => MNoFile
  | Some f =>
      match originalname f with
      | [] => MNoFile
      | _ :: _ =>
          let name := filename now f in
          if fileSize <=? size f
          then MError (set_uploads st (delete name (uploads st)))
                      LIMIT_FILE_SIZE
          else MFile (set_uploads st (<[ name := content f ]> (uploads st)))
                     (path_join uploadsDir name) f
      end
  end.

Definition upload (st : state) (s : sid) (now : N) (part : option upfile)
  : state * response :=
  if negb (authRequired st s) then (st, unauthorized)
  else match upload_single st now part with
       | MError st' e => (st', DefaultError e)
       | MNoFile => (st, Json 400 (BError (u16 "no file")))
       | MFile st' path f =>
           let urlPath := u16 "/uploads/" ++ basename path in
           (st', Json 200 (BOkFile urlPath (originalname f)))
       end.

(** *** GET /api/uploads *)

(** [fs.readdir]: the names in the directory, in the store's order. *)
Definition readdir (st : state) : list jsstring :=
  map fst (map_to_list (uploads st)).

Definition list_uploads (st : state) (s : sid) (readdir_ok : bool)
  : state * response :=
  if negb (adminRequired st s) then (st, forbidden)
  else if negb readdir_ok
       then (st, Json 500 (BError (u16 "read failed")))
       else (st, Json 200 (BOkUploads
                   (map (fun f => (u16 "/uploads/" ++ f, f)) (readdir st)))).

(** *** POST /api/promote *)
Definition promote (st : state) (s : sid) (username : jsval)
  : state * response :=
  if negb (adminRequired st s) then (st, forbidden)
  else if key_throws username then (st, Thrown)
  else match users_get st (to_key username) with
       | None => (st, Json 404 (BError (u16 "no user")))
       | Some u => (set_role_admin st u, Json 200 BOk)
       end.

(** *** A request without a parsed body

    The three handlers above start by destructuring [req.body].  Where
    the framework leaves [req.body] undefined when no parser applied (its
    version 5 does; version 4 leaves an empty object, which is a body
    with two absent fields), the destructuring throws: on promote behind
    the gate, on signup and login at once. *)
Inductive body_route : Type := RSignup | RLogin | RPromote.

Definition no_body (st : state) (route : body_route) (s : sid)
  : state * response :=
  match route with
  | RPromote => if negb (adminRequired st s) then (st, forbidden)
                else (st, Thrown)
  | RSignup | RLogin => (st, Thrown)
  end.

(** *** The process *)

(** Start-up: [users] holds the default admin account, no session exists,
    the prototypes are untouched, and the uploads directory is whatever an
    earlier run left in it. *)
Definition init (dir : gmap jsstring N) : state :=
  mkState {[ u16 "admin" := mkUser (JStr (u16 "adminpass")) RoleAdmin ]}
          ∅ false ∅ dir.

(** A request, with the session identifier its cookie resolves to (a fresh
    one when the cookie is missing or unknown to the store) and, where the
    handler consults them, the clock and the outcome of [fs.readdir]. *)
Inductive request : Type :=
  | Signup (s : sid) (b : body)
  | Login (s : sid) (b : body)
  | Logout (s : sid)
  | Upload (s : sid) (now : N) (part : option upfile)
  | ListUploads (s : sid) (readdir_ok : bool)
  | Promote (s : sid) (username : jsval)
  | NoBody (route : body_route) (s : sid).

Definition handle (st : state) (r : request) : state * response :=
  match r with
  | Signup s b => signup st s b
  | Login s b => login st s b
  | Logout s => logout st s
  | Upload s now part => upload st s now part
  | ListUploads s ok => list_uploads st s ok
  | Promote s u => promote st s u
  | NoBody route s => no_body st route s
  end.

(** The state after serving a sequence of requests. *)
Fixpoint run (st : state) (rs : list request) : state :=
  match rs with
  | [] => st
  | r :: rs' => run (fst (handle st r)) rs'
  end.

Definition reachable (st : state) : Prop :=
  ∃ dir rs, st = run (init dir) rs.

End Routes.

(** *** Invariants of the process *)

(** Nothing is ever removed from what [users] answers: stored records
    stay, and a role put on [Object.prototype] stays. *)
Definition grows (st st' : state) : Prop :=
  (∀ k, is_Some (users st !! k) → is_Some (users st' !! k))
  ∧ (proto_admin st = true → proto_admin st' = true).

(** No stored key hides an inherited property: the assignments of signup
    only ever define plain own properties. *)
Definition own_keys_plain (st : state) : Prop :=
  ∀ k, is_Some (users st !! k) → k ≠ proto_key ∧ k ∉ builtin_names.


(** *** The stored name in the words of the specification

    The clock reading, a hyphen as separator, and the original name with
    every maximal run of whitespace replaced by a single underscore. *)
Definition spec_stored_name (now : N) (original : jsstring) : jsstring :=
  number_to_string now ++ hyphen :: collapse_whitespace original.

End Server.

(* ===================================================================== *)
(** ** Example runs                                                      *)
(* ===================================================================== *)

Module Scenario.
Import JS Server.

Definition dir0 : jsstring := u16 "/srv/app/uploads".
Definition t0 : N := 1700000000000.

Definition alice_body : body :=
  mkBody (JStr (u16 "alice")) (JStr (u16 "pw1")).

(** A signup whose password is the array [["pw1"]]. *)
Definition array_password_body : body :=
  mkBody (JStr (u16 "carol")) (JObject (Some (u16 "pw1"))).

(** A username whose conversion to a property key throws, such as
    [{ toString: 1 }]. *)
Definition throwing_name : jsval := JObject None.
Definition admin_body : body :=
  mkBody (JStr (u16 "admin")) (JStr (u16 "adminpass")).

(** A body that names a property of [Object.prototype] and has no
    password field, and a signup for the same name. *)
Definition constructor_name : jsval := JStr (u16 "constructor").
Definition constructor_login : body := mkBody constructor_name JUndefined.
Definition constructor_signup : body :=
  mkBody constructor_name (JStr (u16 "x")).

(** A visitor has signed up as [alice] on session [1]. *)
Definition alice_state : state := fst (signup (init ∅) 1 alice_body).

(** The administrator has logged in on session [2] of a fresh server. *)
Definition admin_state : state := fst (login (init ∅) 2 admin_body).

(** Alice on session [1], then the administrator on session [2]. *)
Definition alice_admin_state : state := fst (login alice_state 2 admin_body).

(** ... and the administrator has promoted alice. *)
Definition promoted_alice_state : state :=
  fst (promote alice_admin_state 2 (JStr (u16 "alice"))).

(** The administrator has promoted the name [constructor]. *)
Definition promoted_constructor_state : state :=
  fst (promote admin_state 2 constructor_name).

(** Three file parts: two whose names differ only in their whitespace,
    and one a byte longer than the ceiling. *)
Definition clip : upfile := mkUpfile (u16 "my  clip 1.mp4") 1000 7.
Definition clip_again : upfile := mkUpfile (u16 "my clip 1.mp4") 2000 8.
Definition huge : upfile := mkUpfile (u16 "clip.mp4") (fileSize + 1) 9.

(** Alice uploads [clip] and, in the same millisecond, [clip_again]. *)
Definition first_upload : state * response :=
  upload dir0 alice_state 1 t0 (Some clip).
Definition second_upload : state * response :=
  upload dir0 (fst first_upload) 1 t0 (Some clip_again).

(** Alice uploads [huge]. *)
Definition huge_upload : state * response :=
  upload dir0 alice_state 1 t0 (Some huge).

(** One login request for [constructor] on a fresh server. *)
Definition constructor_run : list request := [Login 1 constructor_login].

(** A login for [__proto__] without a password on session [1], then the
    administrator on session [2] ... *)
Definition proto_name : jsval := JStr proto_key.
Definition proto_login : body := mkBody proto_name JUndefined.
Definition before_proto_promote : state :=
  fst (login (fst (login (init ∅) 1 proto_login)) 2 admin_body).

(** ... who then promotes the name [__proto__]. *)
Definition after_proto_promote : state :=
  fst (promote before_proto_promote 2 proto_name).

End Scenario.

(* ===================================================================== *)
(** ** Requests, traces and what they preserve                           *)
(* ===================================================================== *)

Module Trace.
Import JS Server Scenario.

(** The session a request is served on. *)
Definition request_sid (r : request) : sid :=
  match r with
  | Signup s _ | Login s _ | Logout s | Upload s _ _
  | ListUploads s _ | Promote s _ | NoBody _ s => s
  end.

Definition is_promote (r : request) : bool :=
  match r with
  | Promote _ _ => true
  | _ => false
  end.

Definition admin_key : jsstring := u16 "admin".

(** The account created at start-up, [users['admin']]. *)
Definition seeded_admin : user_rec := mkUser (JStr (u16 "adminpass")) RoleAdmin.

(** Roles as they are while promote has not been used: the prototypes
    carry no role, the only stored administrator is the seeded account,
    and a session with the role admin is one for that account. *)
Definition only_seeded_admin (st : state) : Prop :=
  proto_admin st = false
  ∧ builtin_admin st = ∅
  ∧ (∀ k r, users st !! k = Some r → role r = RoleAdmin → k = admin_key)
  ∧ (∀ s u, lookup st s = Some u → s_role u = Some RoleAdmin →
            to_key (s_username u) = admin_key).

(** A record [r'] is what a record [r] may have become: the password is
    the same and an administrator is still one. *)
Definition same_account (r r' : user_rec) : Prop :=
  password r' = password r ∧ (role r = RoleAdmin → role r' = RoleAdmin).

(** The request is an upload with a file part for which the [filename]
    callback gives [name]. *)
Definition generates (name : jsstring) (r : request) : bool :=
  match r with
  | Upload _ now (Some f) => bool_decide (filename now f = name)
  | _ => false
  end.

(** The request is not an upload served at the clock reading [now]. *)
Definition other_clock (now : N) (r : request) : bool :=
  match r with
  | Upload _ now' _ => negb (now' =? now)
  | _ => true
  end.

(** The entry of the upload list for a file name. *)
Definition list_entry (name : jsstring) : jsstring * jsstring :=
  (u16 "/uploads/" ++ name, name).

(** A day on the server: alice signs up and uploads, the administrator
    logs in and promotes her, alice logs out. *)
Definition busy_run : list request :=
  [ Signup 1 alice_body; Login 2 admin_body; Upload 1 t0 (Some clip);
    Promote 2 (JStr (u16 "alice")); Logout 1 ].

Definition busy_state : state := run dir0 (init ∅) busy_run.

(** What follows alice's upload in the examples: the administrator logs
    in, promotes her, and another visitor signs up. *)
Definition after_clip : list request :=
  [ Login 2 admin_body; Promote 2 (JStr (u16 "alice"));
    Signup 3 array_password_body ].

(** The same day without the promote. *)
Definition quiet_run : list request :=
  [ Signup 1 alice_body; Login 2 admin_body; Upload 1 t0 (Some clip);
    Login 3 constructor_login ].

Definition quiet_state : state := run dir0 (init ∅) quiet_run.

End Trace.

(* ===================================================================== *)
(** ** Properties of the string helpers                                  *)
(* ===================================================================== *)

Module JSFacts.
Import JS.

(** The runs of a string are a partition of it. *)
Lemma runs_concat (s : jsstring) : concat (map snd (runs s)) = s.
Proof.
  induction s as [|c t IH]; [reflexivity|].
  simpl. destruct (runs t) as [|[b r] rest]; simpl in *.
  - by rewrite <- IH.
  - destruct (Bool.eqb b (is_space c)); simpl; by rewrite <- IH.
Qed.

(** Each run is non-empty and of one kind. *)
Lemma runs_uniform (s : jsstring) :
  Forall (fun x => snd x ≠ [] ∧ Forall (fun c => is_space c = fst x) (snd x))
         (runs s).
Proof.
  induction s as [|c t IH]; simpl; [constructor|].
  destruct (runs t) as [|[b r] rest].
  - constructor; [|constructor]. simpl. split; [done|].
    constructor; [reflexivity | constructor].
  - destruct (Bool.eqb b (is_space c)) eqn:E.
    + apply Bool.eqb_prop in E. subst b.
      inversion IH as [|? ? [_ Hr] Hrest]; subst.
      constructor; [|assumption]. simpl in *. split; [done|].
      by constructor.
    + constructor; [|assumption]. simpl. split; [done|].
      constructor; [reflexivity | constructor].
Qed.

(** Runs are maximal: two neighbouring runs are of different kinds. *)
Lemma runs_alternating (s : jsstring) : alternating (runs s).
Proof.
  induction s as [|c t IH]; simpl; [exact I|].
  destruct (runs t) as [|[b r] rest] eqn:Ht; [exact I|].
  destruct (Bool.eqb b (is_space c)) eqn:E.
  - simpl in *. destruct rest; [exact I|]. exact IH.
  - simpl. split; [|exact IH].
    intros Heq. rewrite <- Heq, Bool.eqb_reflx in E. discriminate.
Qed.

(** The scan of [replace] against the run decomposition; when the scan is
    inside a match, a leading whitespace run has already been paid for. *)
Lemma replace_ws_from_runs (b : bool) (s : jsstring) :
  replace_ws_from b s =
  match runs s with
  | (true, _) :: rest =>
      (if b then [] else [underscore]) ++ concat (map render_run rest)
  | l => concat (map render_run l)
  end.
Proof.
  revert b. induction s as [|c t IH]; intros b; [reflexivity|].
  simpl. destruct (is_space c) eqn:Hc.
  - assert (Hb : (if b then replace_ws_from true t
                  else underscore :: replace_ws_from true t)
                 = (if b then [] else [underscore]) ++ replace_ws_from true t)
      by (by destruct b).
    rewrite Hb, (IH true). clear Hb.
    destruct (runs t) as [|[[] r] rest]; simpl; reflexivity.
  - rewrite (IH false).
    destruct (runs t) as [|[[] r] rest]; simpl; reflexivity.
Qed.

(** The code's [replace(/\s+/g, '_')] is the specification's collapsing. *)
Lemma replace_ws_collapse (s : jsstring) :
  replace_ws s = collapse_whitespace s.
Proof.
  unfold replace_ws, collapse_whitespace. rewrite replace_ws_from_runs.
  destruct (runs s) as [|[[] r] rest]; reflexivity.
Qed.

(** No whitespace survives the replacement. *)
Lemma replace_ws_from_no_space (b : bool) (s : jsstring) :
  Forall (fun c => is_space c = false) (replace_ws_from b s).
Proof.
  revert b. induction s as [|c t IH]; intros b; simpl; [constructor|].
  destruct (is_space c) eqn:Hc.
  - destruct b; [apply IH|]. constructor; [reflexivity | apply IH].
  - constructor; [assumption | apply IH].
Qed.

Lemma replace_ws_from_no_slash (b : bool) (s : jsstring) :
  slash ∉ s → slash ∉ replace_ws_from b s.
Proof.
  revert b. induction s as [|c t IH]; intros b Hs; simpl; [assumption|].
  apply not_elem_of_cons in Hs as [Hc Ht].
  destruct (is_space c).
  - destruct b; [by apply IH|].
    apply not_elem_of_cons. split; [discriminate | by apply IH].
  - apply not_elem_of_cons. split; [assumption | by apply IH].
Qed.

(** Decimal digits are code units 48 to 57. *)
Lemma uint_digits_range (d : Decimal.uint) :
  Forall (fun c => 48 <= c <= 57) (uint_digits d).
Proof. induction d; simpl; constructor; (lia || assumption). Qed.

Lemma uint_digits_inj (d d' : Decimal.uint) :
  uint_digits d = uint_digits d' → d = d'.
Proof.
  revert d'. induction d; intros d' H; destruct d'; simpl in H;
    try discriminate; try reflexivity;
    injection H as H; f_equal; by apply IHd.
Qed.

Lemma number_to_string_inj (n m : N) :
  number_to_string n = number_to_string m → n = m.
Proof.
  intros H. apply DecimalN.Unsigned.to_uint_inj. by apply uint_digits_inj.
Qed.

Lemma number_to_string_no (c : N) (n : N) :
  c < 48 → c ∉ number_to_string n.
Proof.
  intros Hc Hin. unfold number_to_string in Hin.
  pose proof (uint_digits_range (N.to_uint n)) as Hr.
  rewrite Forall_forall in Hr. apply Hr in Hin. lia.
Qed.

(** Two strings cut at their first occurrence of a separator. *)
Lemma app_sep_inj (c : N) (a a' b b' : jsstring) :
  c ∉ a → c ∉ a' → a ++ c :: b = a' ++ c :: b' → a = a' ∧ b = b'.
Proof.
  revert a'. induction a as [|x a IH]; intros [|x' a'] Ha Ha' H; simpl in H.
  - injection H as H. by split.
  - injection H as Hx _. subst. exfalso. apply Ha'. by left.
  - injection H as Hx _. subst. exfalso. apply Ha. by left.
  - injection H as Hx H. subst.
    apply not_elem_of_cons in Ha as [_ Ha].
    apply not_elem_of_cons in Ha' as [_ Ha'].
    destruct (IH a' Ha Ha' H) as [-> ->]. by split.
Qed.

(** [basename] returns the last segment. *)
Lemma basename_from_no_slash (acc p : jsstring) :
  slash ∉ p → basename_from acc p = acc ++ p.
Proof.
  revert acc. induction p as [|c t IH]; intros acc Hp; simpl.
  - by rewrite app_nil_r.
  - apply not_elem_of_cons in Hp as [Hc Ht].
    destruct (N.eqb_spec c slash) as [->|_]; [done|].
    rewrite IH by assumption. by rewrite <- app_assoc.
Qed.

Lemma basename_path_join (dir name : jsstring) :
  slash ∉ name → basename (path_join dir name) = name.
Proof.
  intros Hn. unfold basename, path_join. generalize (@nil N) as acc.
  induction dir as [|c t IH]; intros acc; simpl.
  - by rewrite basename_from_no_slash.
  - destruct (c =? slash); apply IH.
Qed.

End JSFacts.

(* ===================================================================== *)
(** ** Credential store: signup, login                                   *)
(* ===================================================================== *)

Module Auth.
Import JS Server Scenario.

(** [users[k]] is [undefined] exactly when [k] is neither stored nor
    inherited. *)
Lemma users_get_None (st : state) (k : jsstring) :
  users_get st k = None ↔ users st !! k = None ∧ inherited_name st k = false.
Proof.
  unfold users_get, inherited_name.
  destruct (users st !! k); [split; [|intros []]; discriminate|].
  destruct (bool_decide (k = proto_key)); simpl;
    [split; [|intros []]; discriminate|].
  destruct (bool_decide (k ∈ builtin_names)); simpl;
    [split; [|intros []]; discriminate|].
  destruct (bool_decide (k = role_key) && proto_admin st);
    [split; [|intros []]; discriminate|done].
Qed.

(** A request without a body changes nothing. *)
Lemma no_body_unchanged (st : state) (route : body_route) (s : sid) :
  fst (no_body st route s) = st.
Proof.
  unfold no_body. destruct route; try reflexivity.
  by destruct (negb (adminRequired st s)).
Qed.

Lemma users_get_own (st : state) (k : jsstring) (r : user_rec) :
  users st !! k = Some r → users_get st k = Some (TOwn k).
Proof. intros H. unfold users_get. by rewrite H. Qed.

Lemma users_get_inherited (st : state) (k : jsstring) :
  users st !! k = None → inherited_name st k = true →
  ∃ u, users_get st k = Some u ∧ get_password st u = JUndefined.
Proof.
  intros Hk Hin. unfold users_get, inherited_name in *. rewrite Hk.
  destruct (bool_decide (k = proto_key)); simpl in *; [by eexists|].
  destruct (bool_decide (k ∈ builtin_names)); simpl in *; [by eexists|].
  rewrite Hin. by eexists.
Qed.


(** A stored user is never shadowed: login with the stored password
    succeeds, with any other value it is refused. *)
Lemma login_stored (st : state) (s : sid) (b : body) (r : user_rec) :
  key_throws (b_username b) = false →
  users st !! to_key (b_username b) = Some r →
  login st s b =
  if strict_eq (password r) (b_password b)
  then (set_session st s (mkSessionUser (b_username b) (Some (role r))),
        Json 200 BOk)
  else (st, Json 401 (BError (u16 "invalid"))).
Proof.
  intros Ht Hk. unfold login. rewrite Ht, (users_get_own _ _ _ Hk). simpl.
  rewrite Hk. by destruct (strict_eq (password r) (b_password b)).
Qed.

(** An inherited name logs in exactly when no password is sent. *)
Lemma login_inherited (st : state) (s : sid) (b : body) :
  key_throws (b_username b) = false →
  users st !! to_key (b_username b) = None →
  inherited_name st (to_key (b_username b)) = true →
  b_password b = JUndefined →
  snd (login st s b) = Json 200 BOk.
Proof.
  intros Ht Hk Hin Hp. unfold login. rewrite Ht.
  destruct (users_get_inherited _ _ Hk Hin) as (u & -> & Hpw).
  by rewrite Hpw, Hp.
Qed.

(** Signup refuses empty fields first. *)
Lemma signup_missing (st : state) (s : sid) (b : body) :
  truthy (b_username b) = false ∨ truthy (b_password b) = false →
  signup st s b = (st, Json 400 (BError (u16 "missing"))).
Proof. intros [H|H]; unfold signup; rewrite H; by rewrite ?orb_true_r. Qed.


(** A stored name is always a conflict. *)
Lemma signup_exists (st : state) (s : sid) (b : body) (r : user_rec) :
  truthy (b_username b) = true → truthy (b_password b) = true →
  key_throws (b_username b) = false →
  users st !! to_key (b_username b) = Some r →
  signup st s b = (st, Json 409 (BError (u16 "exists"))).
Proof.
  intros Hu Hp Ht Hk. unfold signup. rewrite Hu, Hp, Ht. simpl.
  by rewrite (users_get_own _ _ _ Hk).
Qed.

(** Signing up twice with the same fields: the second call is a conflict. *)
Lemma signup_twice (st : state) (s s' : sid) (b : body) :
  snd (signup st s b) = Json 200 BOk →
  signup (fst (signup st s b)) s' b
  = (fst (signup st s b), Json 409 (BError (u16 "exists"))).
Proof.
  intros Hok.
  assert (truthy (b_username b) = true ∧ truthy (b_password b) = true
          ∧ key_throws (b_username b) = false
          ∧ users_get st (to_key (b_username b)) = None)
    as (Hu & Hp & Ht & Hg).
  { unfold signup in Hok.
    destruct (truthy (b_username b)), (truthy (b_password b));
      simpl in Hok; try discriminate.
    destruct (key_throws (b_username b)); [discriminate|].
    destruct (users_get st (to_key (b_username b))); [discriminate|done]. }
  assert (fst (signup st s b)
          = set_session
              (set_user st (to_key (b_username b))
                        (mkUser (b_password b) RoleUser))
              s (mkSessionUser (b_username b) (Some RoleUser))) as ->
    by (unfold signup; rewrite Hu, Hp, Ht, Hg; reflexivity).
  eapply signup_exists; [assumption..|].
  simpl. apply lookup_insert_eq.
Qed.

(** C1 (defect).  On a freshly started server a login for the name
    [constructor], which no signup ever stored, sent without a password
    field, is answered [{ ok: true }] instead of 401 and leaves a session
    for that name, without a role. *)
Theorem login_inherited_name_accepted (dir : gmap jsstring N) (s : sid) :
  users (init dir) !! to_key (b_username constructor_login) = None
  ∧ snd (login (init dir) s constructor_login) = Json 200 BOk
  ∧ lookup (fst (login (init dir) s constructor_login)) s
    = Some (mkSessionUser constructor_name None).
Proof.
  split; [done|]. split; [reflexivity|].
  unfold lookup, login. simpl. apply lookup_insert_eq.
Qed.

(** C2 (defect).  On a freshly started server a signup for the name
    [constructor] with a non-empty password is answered 409 [exists]
    although no such user is stored, and no user is created. *)
Theorem signup_inherited_name_conflict (dir : gmap jsstring N) (s : sid) :
  truthy (b_username constructor_signup) = true
  ∧ truthy (b_password constructor_signup) = true
  ∧ users (init dir) !! to_key (b_username constructor_signup) = None
  ∧ signup (init dir) s constructor_signup
    = (init dir, Json 409 (BError (u16 "exists"))).
Proof. repeat split; done. Qed.

End Auth.

(* ===================================================================== *)
(** ** Sessions and the access gates                                     *)
(* ===================================================================== *)

Module Gate.
Import JS Server Scenario.

Lemma adminRequired_spec (st : state) (s : sid) :
  adminRequired st s = true
  ↔ ∃ u, lookup st s = Some u ∧ session_role st u = Some RoleAdmin.
Proof.
  unfold adminRequired. destruct (lookup st s) as [u|].
  - rewrite bool_decide_eq_true. split; [eauto|].
    by intros (u' & [= <-] & H).
  - split; [discriminate|]. by intros (u' & [=] & _).
Qed.

(** The gate in terms of what the session holds: it passes a session
    whose stored role is admin, and a session without a stored role once
    [Object.prototype] carries the role. *)
Lemma adminRequired_stored (st : state) (s : sid) :
  adminRequired st s = true
  ↔ ∃ u, lookup st s = Some u
         ∧ (s_role u = Some RoleAdmin
            ∨ (s_role u = None ∧ proto_admin st = true)).
Proof.
  rewrite adminRequired_spec. unfold session_role, inherited_role.
  split; intros (u & Hl & H); exists u; (split; [exact Hl|]).
  - destruct (s_role u) as [r|]; [left; exact H|right].
    split; [reflexivity|]. by destruct (proto_admin st).
  - destruct H as [-> | [-> ->]]; reflexivity.
Qed.

(** C3 (defect).  After a login for [__proto__] without a password and a
    promote of [__proto__] by the administrator, session [1] has a user
    object without any stored role, for a name the store does not hold,
    and yet it passes the admin gate: the upload list is answered 200 and
    promote is not answered 403. *)
Theorem role_less_session_passes :
  lookup after_proto_promote 1 = Some (mkSessionUser proto_name None)
  ∧ users after_proto_promote !! to_key proto_name = None
  ∧ adminRequired after_proto_promote 1 = true
  ∧ snd (list_uploads after_proto_promote 1 true) = Json 200 (BOkUploads [])
  ∧ snd (promote after_proto_promote 1 (JStr (u16 "nobody")))
    = Json 404 (BError (u16 "no user")).
Proof. repeat split; reflexivity. Qed.

(** X24.  The admin gate passes a session exactly when its user object
    has the stored role admin or has no stored role while
    [Object.prototype] carries the role; so in a state where
    [Object.prototype] carries no role it passes exactly the sessions
    whose stored role is admin.  Whenever the gate does not pass, a
    session of an ordinary user and no session at all included, the upload
    list and promote are answered 403 [forbidden] and change nothing; and
    neither route ever answers 401. *)
Theorem admin_gate_by_stored_role
    (st : state) (s : sid) (readdir_ok : bool) (username : jsval) :
  (adminRequired st s = true
   ↔ ∃ u, lookup st s = Some u
          ∧ (s_role u = Some RoleAdmin
             ∨ (s_role u = None ∧ proto_admin st = true)))
  ∧ (proto_admin st = false →
     (adminRequired st s = true
      ↔ ∃ u, lookup st s = Some u ∧ s_role u = Some RoleAdmin))
  ∧ (adminRequired st s = false →
     list_uploads st s readdir_ok = (st, forbidden)
     ∧ promote st s username = (st, forbidden))
  ∧ (adminRequired st s = true →
     http_status (snd (list_uploads st s readdir_ok)) ≠ 403
     ∧ http_status (snd (promote st s username)) ≠ 403)
  ∧ http_status forbidden = 403
  ∧ http_status (snd (list_uploads st s readdir_ok)) ≠ 401
  ∧ http_status (snd (promote st s username)) ≠ 401.
Proof.
  split; [apply adminRequired_stored|]. split.
  { intros Hp. rewrite adminRequired_stored. split.
    - intros (u & Hl & [Hr | [_ Hq]]); [eauto | congruence].
    - intros (u & Hl & Hr). eauto. }
  unfold list_uploads, promote.
  destruct (adminRequired st s); simpl.
  - split; [discriminate|].
    destruct readdir_ok, (key_throws username),
      (users_get st (to_key username)); simpl; repeat split; discriminate.
  - repeat split; discriminate.
Qed.

(** A freshly signed-up user is refused with 403; the administrator's
    session, whose stored role is admin, passes. *)
Lemma admin_gate_by_stored_role_witness :
  adminRequired alice_admin_state 1 = false
  ∧ list_uploads alice_admin_state 1 true = (alice_admin_state, forbidden)
  ∧ proto_admin alice_admin_state = false
  ∧ adminRequired alice_admin_state 2 = true.
Proof.
  assert (H : adminRequired alice_admin_state 1 = false) by reflexivity.
  assert (Hp : proto_admin alice_admin_state = false) by reflexivity.
  pose proof (admin_gate_by_stored_role alice_admin_state 1 true JUndefined)
    as (_ & _ & H403 & _).
  pose proof (admin_gate_by_stored_role alice_admin_state 2 true JUndefined)
    as (_ & Hiff & _).
  split; [exact H|]. split; [exact (proj1 (H403 H))|]. split; [exact Hp|].
  apply (proj2 (Hiff Hp)).
  exists (mkSessionUser (JStr (u16 "admin")) (Some RoleAdmin)).
  split; reflexivity.
Defined.

(** The session gate of the upload route, for comparison: no session gives
    401. *)
Lemma authRequired_spec (st : state) (s : sid) :
  authRequired st s = true ↔ is_Some (lookup st s).
Proof.
  unfold authRequired. destruct (lookup st s); split;
    first [done | by intros [? [=]] | eauto].
Qed.

(** C9.  Logout always answers 200 [{ ok: true }] and leaves the
    identifier unbound; doing it again gives the same response and the
    same state, and without a session it changes nothing.  Users, files,
    prototypes and the other sessions are untouched. *)
Theorem logout_idempotent (st : state) (s : sid) :
  snd (logout st s) = Json 200 BOk
  ∧ lookup (fst (logout st s)) s = None
  ∧ logout (fst (logout st s)) s = logout st s
  ∧ (lookup st s = None → logout st s = (st, Json 200 BOk))
  ∧ (∀ s', s' ≠ s → lookup (fst (logout st s)) s' = lookup st s')
  ∧ users (fst (logout st s)) = users st
  ∧ uploads (fst (logout st s)) = uploads st
  ∧ builtin_admin (fst (logout st s)) = builtin_admin st
  ∧ proto_admin (fst (logout st s)) = proto_admin st.
Proof.
  unfold logout, lookup. simpl. repeat split.
  - apply lookup_delete_eq.
  - by rewrite delete_delete_eq.
  - intros H. rewrite (delete_id _ _ H). by destruct st.
  - intros s' Hs'. by apply lookup_delete_ne.
Qed.

(** Logging out twice in a row, and logging out without ever logging in. *)
Lemma logout_idempotent_witness :
  lookup (init ∅) 7 = None
  ∧ logout (init ∅) 7 = (init ∅, Json 200 BOk).
Proof.
  assert (H : lookup (init ∅) 7 = None) by reflexivity.
  split; [exact H|].
  exact (proj1 (proj2 (proj2 (proj2 (logout_idempotent (init ∅) 7)))) H).
Defined.

End Gate.

(* ===================================================================== *)
(** ** Promote                                                           *)
(* ===================================================================== *)

Module Promotion.
Import JS Server Scenario.



(** What promote does to the state, whatever the target resolves to. *)
Lemma promote_state (st : state) (s : sid) (username : jsval) :
  fst (promote st s username) = st
  ∨ ∃ u, users_get st (to_key username) = Some u
         ∧ fst (promote st s username) = set_role_admin st u.
Proof.
  unfold promote. destruct (adminRequired st s); simpl; [|by left].
  destruct (key_throws username); [by left|].
  destruct (users_get st (to_key username)) as [u|]; [|by left].
  right. by exists u.
Qed.

Lemma users_get_TOwn (st : state) (k k' : jsstring) :
  users_get st k = Some (TOwn k') → k' = k ∧ is_Some (users st !! k).
Proof.
  unfold users_get. destruct (users st !! k) eqn:Hk.
  - intros [= <-]. eauto.
  - repeat case_match; discriminate.
Qed.

Lemma adminRequired_ext (st st' : state) (s : sid) :
  sessions st' = sessions st → proto_admin st' = proto_admin st →
  adminRequired st' s = adminRequired st s.
Proof.
  intros Hs Hp. unfold adminRequired, lookup, session_role, inherited_role.
  by rewrite Hs, Hp.
Qed.

(** A session that holds the role snapshot [user] never passes the gate. *)
Lemma adminRequired_snapshot_user (st : state) (s : sid) (u : session_user) :
  lookup st s = Some u → s_role u = Some RoleUser →
  adminRequired st s = false.
Proof.
  intros Hl Hr. unfold adminRequired, session_role. by rewrite Hl, Hr.
Qed.

Lemma set_role_admin_frame (st : state) (u : target) :
  sessions (set_role_admin st u) = sessions st
  ∧ uploads (set_role_admin st u) = uploads st.
Proof. by destruct u. Qed.

(** C4 (defect).  With an administrator session, promote of the name
    [constructor], which is not in the credential store, is answered
    [{ ok: true }] instead of 404; the store itself is unchanged, and a
    later login under that name, without a password, holds an admin
    session. *)
Theorem promote_inherited_name_accepted :
  adminRequired admin_state 2 = true
  ∧ users admin_state !! to_key constructor_name = None
  ∧ snd (promote admin_state 2 constructor_name) = Json 200 BOk
  ∧ users promoted_constructor_state = users admin_state
  ∧ snd (login promoted_constructor_state 3 constructor_login) = Json 200 BOk
  ∧ adminRequired
      (fst (login promoted_constructor_state 3 constructor_login)) 3 = true.
Proof. repeat split; reflexivity. Qed.

(** C10 (defect).  Session [1] was made by a login for [__proto__]
    and is answered 403 on the upload list.  The administrator's promote
    of [__proto__] is answered 200 although the store holds no such user;
    it changes no user record and no session, but puts the role on
    [Object.prototype], and session [1], which never authenticated again,
    is now answered 200 on the upload list. *)
Theorem promote_proto_lifts_session :
  users before_proto_promote !! to_key proto_name = None
  ∧ list_uploads before_proto_promote 1 true
    = (before_proto_promote, forbidden)
  ∧ snd (promote before_proto_promote 2 proto_name) = Json 200 BOk
  ∧ users after_proto_promote = users before_proto_promote
  ∧ sessions after_proto_promote = sessions before_proto_promote
  ∧ proto_admin before_proto_promote = false
  ∧ proto_admin after_proto_promote = true
  ∧ http_status (snd (list_uploads after_proto_promote 1 true)) = 200.
Proof. repeat split; reflexivity. Qed.

(** X25.  Whatever its outcome, promote leaves the session store and the
    uploaded files as they were and leaves every user record under another
    key as it was; a session that holds the stored role user is still
    answered 403 by the admin-only routes afterwards.  When the target key
    holds a stored user, promote touches nothing but that record: the
    inherited objects are as before, the gate decides every session as
    before, and the record either is unchanged or has the same password
    and the role admin. *)
Theorem promote_changes_only_role
    (st : state) (s : sid) (username : jsval) :
  sessions (fst (promote st s username)) = sessions st
  ∧ uploads (fst (promote st s username)) = uploads st
  ∧ (∀ k, k ≠ to_key username →
          users (fst (promote st s username)) !! k = users st !! k)
  ∧ (∀ s' u readdir_ok name,
       lookup st s' = Some u → s_role u = Some RoleUser →
       lookup (fst (promote st s username)) s' = Some u
       ∧ list_uploads (fst (promote st s username)) s' readdir_ok
         = (fst (promote st s username), forbidden)
       ∧ promote (fst (promote st s username)) s' name
         = (fst (promote st s username), forbidden))
  ∧ (∀ r, users st !! to_key username = Some r →
          builtin_admin (fst (promote st s username)) = builtin_admin st
          ∧ proto_admin (fst (promote st s username)) = proto_admin st
          ∧ (∀ s', adminRequired (fst (promote st s username)) s'
                   = adminRequired st s')
          ∧ (users (fst (promote st s username)) !! to_key username
             = Some r
             ∨ users (fst (promote st s username)) !! to_key username
               = Some (mkUser (password r) RoleAdmin))).
Proof.
  set (st' := fst (promote st s username)).
  assert (Hs : sessions st' = sessions st ∧ uploads st' = uploads st).
  { destruct (promote_state st s username) as [H|(u & _ & H)];
      subst st'; rewrite H; [done | apply set_role_admin_frame]. }
  destruct Hs as [Hs Hu].
  split; [exact Hs|]. split; [exact Hu|]. split; [|split].
  - intros k Hk.
    destruct (promote_state st s username) as [H|(u & Hg & H)];
      subst st'; rewrite H; [done|].
    destruct u; simpl; try done.
    apply users_get_TOwn in Hg as [-> _]. by apply lookup_alter_ne.
  - intros s' u ok name Hl Hr.
    assert (Hl' : lookup st' s' = Some u) by (unfold lookup; by rewrite Hs).
    pose proof (adminRequired_snapshot_user st' s' u Hl' Hr) as Hg.
    split; [exact Hl'|]. unfold list_uploads, promote. by rewrite Hg.
  - intros r Hr.
    assert (Hst : st' = st
                  ∨ st' = set_role_admin st (TOwn (to_key username))).
    { destruct (promote_state st s username) as [H|(u & Hg & H)];
        [by left|]. right. fold st' in H. rewrite H.
      by rewrite (Auth.users_get_own _ _ _ Hr) in Hg; injection Hg as <-. }
    destruct Hst as [-> | ->].
    + repeat split; try done. by left.
    + split; [done|]. split; [done|].
      split; [intros s'; by apply adminRequired_ext|].
      right. simpl. by rewrite lookup_alter_eq, Hr.
Qed.

(** Alice, promoted while logged in, is still refused on her old session,
    and her record keeps its password. *)
Lemma promote_changes_only_role_witness :
  lookup alice_admin_state 1
  = Some (mkSessionUser (JStr (u16 "alice")) (Some RoleUser))
  ∧ users alice_admin_state !! to_key (JStr (u16 "alice"))
    = Some (mkUser (JStr (u16 "pw1")) RoleUser)
  ∧ users promoted_alice_state !! u16 "alice"
    = Some (mkUser (JStr (u16 "pw1")) RoleAdmin)
  ∧ list_uploads promoted_alice_state 1 true
    = (promoted_alice_state, forbidden)
  ∧ adminRequired promoted_alice_state 1 = adminRequired alice_admin_state 1.
Proof.
  assert (Hl : lookup alice_admin_state 1
               = Some (mkSessionUser (JStr (u16 "alice")) (Some RoleUser)))
    by reflexivity.
  assert (Hu : users alice_admin_state !! to_key (JStr (u16 "alice"))
               = Some (mkUser (JStr (u16 "pw1")) RoleUser)) by reflexivity.
  split; [exact Hl|]. split; [exact Hu|]. split; [reflexivity|].
  pose proof (promote_changes_only_role alice_admin_state 2
                                        (JStr (u16 "alice")))
    as (_ & _ & _ & Hsnap & Hstored).
  split.
  - exact (proj1 (proj2 (Hsnap 1 _ true JUndefined Hl eq_refl))).
  - exact (proj1 (proj2 (proj2 (Hstored _ Hu))) 1).
Defined.

End Promotion.

(* ===================================================================== *)
(** ** Reachable states                                                  *)
(* ===================================================================== *)

Module Reach.
Import JS Server Scenario.

Lemma grows_refl (st : state) : grows st st.
Proof. by split. Qed.


Lemma set_role_admin_grows (st : state) (u : target) :
  grows st (set_role_admin st u).
Proof.
  destruct u; split; simpl; try done.
  intros k' [r Hr]. destruct (decide (k = k')) as [->|Hne].
  - rewrite lookup_alter_eq, Hr. eauto.
  - rewrite lookup_alter_ne by done. eauto.
Qed.

Section WithDir.
Variable uploadsDir : jsstring.

Lemma handle_grows (st : state) (r : request) :
  grows st (fst (handle uploadsDir st r)).
Proof.
  destruct r as [s b|s b|s|s now part|s ok|s name|route s]; simpl.
  - unfold signup.
    destruct (negb (truthy (b_username b)) || negb (truthy (b_password b)));
      [apply grows_refl|].
    destruct (key_throws (b_username b)); [apply grows_refl|].
    destruct (users_get st (to_key (b_username b))); [apply grows_refl|].
    split; simpl; [|done]. intros k [r Hr].
    destruct (decide (to_key (b_username b) = k)) as [->|Hne].
    + rewrite lookup_insert_eq. eauto.
    + rewrite lookup_insert_ne by done. eauto.
  - unfold login. destruct (key_throws (b_username b)); [apply grows_refl|].
    destruct (users_get st (to_key (b_username b)));
      [|apply grows_refl].
    destruct (negb _); [apply grows_refl | by split].
  - by split.
  - unfold upload. destruct (negb (authRequired st s)); [apply grows_refl|].
    unfold upload_single. destruct part as [f|]; [|apply grows_refl].
    destruct (originalname f); [apply grows_refl|].
    destruct (fileSize <=? size f); by split.
  - unfold list_uploads. destruct (negb (adminRequired st s));
      [apply grows_refl|]. destruct (negb ok); apply grows_refl.
  - destruct (Promotion.promote_state st s name) as [->|(u & _ & ->)];
      [apply grows_refl | apply set_role_admin_grows].
  - rewrite Auth.no_body_unchanged. apply grows_refl.
Qed.





(** The keys of the store stay clear of the inherited names. *)
Lemma handle_own_keys_plain (st : state) (r : request) :
  own_keys_plain st → own_keys_plain (fst (handle uploadsDir st r)).
Proof.
  intros Hinv.
  destruct r as [s b|s b|s|s now part|s ok|s name|route s]; simpl.
  - unfold signup.
    destruct (negb (truthy (b_username b)) || negb (truthy (b_password b)));
      [exact Hinv|].
    destruct (key_throws (b_username b)); [exact Hinv|].
    destruct (users_get st (to_key (b_username b))) eqn:Hg; [exact Hinv|].
    apply Auth.users_get_None in Hg as [_ Hin].
    intros k [r Hr]. simpl in Hr.
    destruct (decide (to_key (b_username b) = k)) as [<-|Hne].
    + unfold inherited_name in Hin.
      apply orb_false_elim in Hin as [Hin _].
      apply orb_false_elim in Hin as [Hp Hb].
      apply bool_decide_eq_false in Hp. apply bool_decide_eq_false in Hb.
      by split.
    + rewrite lookup_insert_ne in Hr by done. apply Hinv. eauto.
  - unfold login. destruct (key_throws (b_username b)); [exact Hinv|].
    destruct (users_get st (to_key (b_username b)));
      [|exact Hinv]. destruct (negb _); exact Hinv.
  - exact Hinv.
  - unfold upload. destruct (negb (authRequired st s)); [exact Hinv|].
    unfold upload_single. destruct part as [f|]; [|exact Hinv].
    destruct (originalname f); [exact Hinv|].
    destruct (fileSize <=? size f); exact Hinv.
  - unfold list_uploads. destruct (negb (adminRequired st s));
      [exact Hinv|]. destruct (negb ok); exact Hinv.
  - destruct (Promotion.promote_state st s name) as [->|(u & _ & ->)];
      [exact Hinv|].
    destruct u; simpl; try exact Hinv.
    intros k' [r Hr]. apply Hinv. simpl in Hr.
    destruct (decide (k = k')) as [->|Hne].
    + rewrite lookup_alter_eq in Hr.
      destruct (users st !! k') eqn:E; [eauto | discriminate].
    + rewrite lookup_alter_ne in Hr by done. eauto.
  - by rewrite Auth.no_body_unchanged.
Qed.

(** X22.  In every reachable state no stored key is [__proto__] or the
    name of a function of [Object.prototype]: signup never replaces the
    prototype of [users] and never hides an inherited property. *)
Lemma reachable_own_keys_plain (st : state) :
  reachable uploadsDir st → own_keys_plain st.
Proof.
  intros (dir & rs & ->).
  assert (H0 : own_keys_plain (init dir)).
  { intros k [r Hr]. simpl in Hr.
    apply lookup_singleton_Some in Hr as [<- _].
    split; [discriminate|].
    by apply (bool_decide_eq_false_1 (u16 "admin" ∈ builtin_names)). }
  generalize dependent (init dir). induction rs as [|r rs IH];
    intros st Hst; simpl; [exact Hst|].
  apply IH. by apply handle_own_keys_plain.
Qed.

(** Stored records are never removed. *)
Lemma run_grows (st : state) (rs : list request) :
  grows st (run uploadsDir st rs).
Proof.
  revert st. induction rs as [|r rs IH]; intros st; simpl;
    [apply grows_refl|].
  destruct (handle_grows st r) as [H1 H2], (IH (fst (handle uploadsDir st r)))
    as [H3 H4]. split; auto.
Qed.

(** C5 (defect).  One login request on a freshly started server reaches a
    state whose session [1] carries the username [constructor], for which
    the credential store holds no record, neither then nor at start-up. *)
Theorem session_without_user_reachable :
  reachable uploadsDir (run uploadsDir (init ∅) constructor_run)
  ∧ lookup (run uploadsDir (init ∅) constructor_run) 1
    = Some (mkSessionUser constructor_name None)
  ∧ users (run uploadsDir (init ∅) constructor_run)
      !! to_key constructor_name = None
  ∧ users (init ∅) !! to_key constructor_name = None.
Proof.
  split; [by exists ∅, constructor_run|]. repeat split; reflexivity.
Qed.

End WithDir.

End Reach.

(* ===================================================================== *)
(** ** Uploads                                                           *)
(* ===================================================================== *)

Module Uploads.
Import JS Server Scenario.

(** The ceiling is 2 GiB. *)
Lemma fileSize_value : fileSize = 2 ^ 31 ∧ fileSize = 2147483648.
Proof. split; reflexivity. Qed.

Lemma filename_no_slash (now : N) (f : upfile) :
  slash ∉ originalname f → slash ∉ filename now f.
Proof.
  intros Hf. unfold filename. rewrite not_elem_of_app. split.
  - apply JSFacts.number_to_string_no. reflexivity.
  - apply not_elem_of_cons. split; [discriminate|].
    by apply JSFacts.replace_ws_from_no_slash.
Qed.

(** Two generated names coincide exactly when the clock readings coincide
    and the original names collapse to the same string. *)
Lemma filename_eq_iff (now now' : N) (f f' : upfile) :
  filename now f = filename now' f'
  ↔ now = now' ∧ replace_ws (originalname f) = replace_ws (originalname f').
Proof.
  unfold filename. split.
  - intros H. apply JSFacts.app_sep_inj in H as [Hn Hr];
      [|by apply JSFacts.number_to_string_no..].
    split; [by apply JSFacts.number_to_string_inj | exact Hr].
  - by intros [-> ->].
Qed.

(** Uploads at different clock readings never share a name. *)
Lemma filename_distinct_clock (now now' : N) (f f' : upfile) :
  now ≠ now' → filename now f ≠ filename now' f'.
Proof. intros Hne H. apply filename_eq_iff in H as [H _]. done. Qed.

Section WithDir.
Variable uploadsDir : jsstring.

(** Without a session the upload route answers 401 and stores nothing. *)
Lemma upload_unauthorized
    (st : state) (s : sid) (now : N) (part : option upfile) :
  authRequired st s = false →
  upload uploadsDir st s now part = (st, unauthorized).
Proof. intros H. unfold upload. by rewrite H. Qed.

(** C6.  For a file whose name has no path separator: an upload by a
    session holder of a named part below the ceiling is answered 200; and
    whenever the upload is answered 200, the caller had a session, the
    part had a name within the ceiling, the [file] of the response is
    [/uploads/] followed by the stored name, namely the clock reading, a
    hyphen, and the original name with every maximal run of whitespace
    replaced by one underscore, and afterwards the uploads directory holds
    the content of the part under exactly that stored name, every other
    file being as before. *)
Theorem upload_stored_name
    (st : state) (s : sid) (now : N) (f : upfile) :
  slash ∉ originalname f →
  (authRequired st s = true ∧ originalname f ≠ [] ∧ size f < fileSize →
   http_status (snd (upload uploadsDir st s now (Some f))) = 200)
  ∧ (http_status (snd (upload uploadsDir st s now (Some f))) = 200 →
     authRequired st s = true ∧ originalname f ≠ [] ∧ size f <= fileSize
     ∧ snd (upload uploadsDir st s now (Some f))
       = Json 200
           (BOkFile (u16 "/uploads/" ++ spec_stored_name now (originalname f))
                    (originalname f))
     ∧ uploads (fst (upload uploadsDir st s now (Some f)))
         !! spec_stored_name now (originalname f) = Some (content f)
     ∧ (∀ k, k ≠ spec_stored_name now (originalname f) →
             uploads (fst (upload uploadsDir st s now (Some f))) !! k
             = uploads st !! k)
     ∧ users (fst (upload uploadsDir st s now (Some f))) = users st
     ∧ sessions (fst (upload uploadsDir st s now (Some f))) = sessions st).
Proof.
  intros Hslash.
  assert (Hname : filename now f = spec_stored_name now (originalname f))
    by (unfold filename, spec_stored_name;
        by rewrite JSFacts.replace_ws_collapse).
  pose proof (filename_no_slash now f Hslash) as Hns.
  rewrite <- Hname. clear Hname.
  unfold upload, upload_single.
  destruct (authRequired st s); simpl;
    [|split; [intros [[=] _] | discriminate]].
  destruct (originalname f) as [|c t] eqn:Ho; simpl;
    [split; [intros (_ & ? & _); done | discriminate]|].
  destruct (N.leb_spec fileSize (size f)) as [Hle|Hlt]; simpl.
  - split; [intros (_ & _ & ?); lia | discriminate].
  - split; [intros _; reflexivity|].
    intros _. split; [reflexivity|]. split; [discriminate|].
    split; [lia|]. split.
    { rewrite JSFacts.basename_path_join by exact Hns. by rewrite Ho. }
    split; [apply lookup_insert_eq|]. split; [|done].
    intros k Hk. by apply lookup_insert_ne.
Qed.

(** C8, as amended.  When a named file part is longer than the ceiling
    the multipart middleware fails with its code for the file-size limit,
    the route handler does not run, nothing is stored under the generated
    name, and the response is the one of the framework's default error
    handler, status 500, not a JSON error body. *)
Theorem upload_too_large_rejected
    (st : state) (s : sid) (now : N) (f : upfile) :
  authRequired st s = true → originalname f ≠ [] → fileSize < size f →
  snd (upload uploadsDir st s now (Some f)) = DefaultError LIMIT_FILE_SIZE
  ∧ http_status (snd (upload uploadsDir st s now (Some f))) = 500
  ∧ structured_error (snd (upload uploadsDir st s now (Some f))) = false
  ∧ uploads (fst (upload uploadsDir st s now (Some f))) !! filename now f
    = None
  ∧ (∀ k, k ≠ filename now f →
          uploads (fst (upload uploadsDir st s now (Some f))) !! k
          = uploads st !! k)
  ∧ users (fst (upload uploadsDir st s now (Some f))) = users st
  ∧ sessions (fst (upload uploadsDir st s now (Some f))) = sessions st.
Proof.
  intros Ha Ho Hlt. unfold upload, upload_single. rewrite Ha. simpl.
  destruct (originalname f) as [|c t] eqn:E; [done|].
  assert ((fileSize <=? size f) = true) as -> by (apply N.leb_le; lia).
  simpl. repeat split.
  - apply lookup_delete_eq.
  - intros k Hk. by apply lookup_delete_ne.
Qed.

End WithDir.

Lemma clip_no_slash : slash ∉ originalname clip.
Proof.
  intros H. apply list_elem_of_In in H. vm_compute in H.
  repeat (destruct H as [H|H]; [discriminate H|]). exact H.
Defined.

(** Alice's upload of a file named with a double space: the answer and
    the directory afterwards. *)
Lemma upload_stored_name_witness :
  (slash ∉ originalname clip)
  ∧ http_status (snd first_upload) = 200
  ∧ snd first_upload
    = Json 200 (BOkFile (u16 "/uploads/1700000000000-my_clip_1.mp4")
                        (u16 "my  clip 1.mp4"))
  ∧ uploads (fst first_upload) !! spec_stored_name t0 (originalname clip)
    = Some (content clip)
  ∧ spec_stored_name t0 (originalname clip)
    = u16 "1700000000000-my_clip_1.mp4".
Proof.
  assert (H200 : http_status (snd first_upload) = 200) by reflexivity.
  split; [exact clip_no_slash|]. split; [exact H200|].
  destruct (proj2 (upload_stored_name dir0 alice_state 1 t0 clip
                                      clip_no_slash) H200)
    as (_ & _ & _ & Hresp & Hdir & _).
  split; [exact Hresp|]. split; [exact Hdir | reflexivity].
Defined.

Lemma upload_too_large_rejected_witness :
  authRequired alice_state 1 = true
  ∧ originalname huge ≠ []
  ∧ fileSize < size huge
  ∧ snd huge_upload = DefaultError LIMIT_FILE_SIZE.
Proof.
  assert (Ha : authRequired alice_state 1 = true) by reflexivity.
  assert (Ho : originalname huge ≠ []) by discriminate.
  assert (Hl : fileSize < size huge) by reflexivity.
  split; [exact Ha|]. split; [exact Ho|]. split; [exact Hl|].
  exact (proj1 (upload_too_large_rejected dir0 alice_state 1 t0 huge
                                          Ha Ho Hl)).
Defined.

(** C8 (counterexample).  An authenticated upload of one byte more than
    2 GiB is not answered with a structured error: the response is not a
    JSON body with an error code, and its status is 500, not 413. *)
Lemma upload_too_large_unstructured :
  authRequired alice_state 1 = true
  ∧ size huge = 2 ^ 31 + 1
  ∧ fileSize < size huge
  ∧ structured_error (snd huge_upload) = false
  ∧ (∀ s b, snd huge_upload ≠ Json s b)
  ∧ http_status (snd huge_upload) ≠ 413.
Proof. repeat split; try reflexivity; discriminate. Qed.

(** C7 (defect).  Two uploads served in the same millisecond whose
    original names collapse to the same string get the same stored name:
    both are answered 200 with the same path, the second write replaces
    the first file, and the directory holds one file. *)
Theorem filename_collision :
  clip ≠ clip_again
  ∧ http_status (snd first_upload) = 200
  ∧ http_status (snd second_upload) = 200
  ∧ filename t0 clip = filename t0 clip_again
  ∧ uploads (fst first_upload) !! filename t0 clip = Some (content clip)
  ∧ uploads (fst second_upload) !! filename t0 clip
    = Some (content clip_again)
  ∧ readdir (fst second_upload) = [filename t0 clip].
Proof. repeat split; try reflexivity; discriminate. Qed.

End Uploads.

(* ===================================================================== *)
(** ** Accounts over time                                                *)
(* ===================================================================== *)

Module Accounts.
Import JS Server Scenario Trace.

(** What a signup answered 200 did. *)
Lemma signup_ok_inv (st : state) (s : sid) (b : body) :
  snd (signup st s b) = Json 200 BOk →
  users_get st (to_key (b_username b)) = None
  ∧ fst (signup st s b)
    = set_session
        (set_user st (to_key (b_username b)) (mkUser (b_password b) RoleUser))
        s (mkSessionUser (b_username b) (Some RoleUser)).
Proof.
  unfold signup.
  destruct (negb (truthy (b_username b)) || negb (truthy (b_password b)));
    [discriminate|].
  destruct (key_throws (b_username b)); [discriminate|].
  destruct (users_get st (to_key (b_username b))); [discriminate|done].
Qed.

Lemma signup_ok_key (st : state) (s : sid) (b : body) :
  snd (signup st s b) = Json 200 BOk →
  truthy (b_username b) = true ∧ key_throws (b_username b) = false.
Proof.
  unfold signup. destruct (truthy (b_username b)); simpl; [|discriminate].
  destruct (negb (truthy (b_password b))); [discriminate|].
  destruct (key_throws (b_username b)); [discriminate|done].
Qed.







(** X2.  The session of a signup that was answered 200 passes the session
    gate but not the admin gate: its uploads are not answered 401, and
    the upload list and promote are answered 403 and change nothing. *)
Theorem signup_session_is_ordinary
    (uploadsDir : jsstring) (st : state) (s : sid) (b : body)
    (now : N) (part : option upfile) (readdir_ok : bool) (name : jsval) :
  snd (signup st s b) = Json 200 BOk →
  authRequired (fst (signup st s b)) s = true
  ∧ adminRequired (fst (signup st s b)) s = false
  ∧ http_status (snd (upload uploadsDir (fst (signup st s b)) s now part))
    ≠ 401
  ∧ list_uploads (fst (signup st s b)) s readdir_ok
    = (fst (signup st s b), forbidden)
  ∧ promote (fst (signup st s b)) s name = (fst (signup st s b), forbidden).
Proof.
  intros Hok. destruct (signup_ok_inv st s b Hok) as [_ Hst].
  assert (Hl : lookup (fst (signup st s b)) s
               = Some (mkSessionUser (b_username b) (Some RoleUser)))
    by (rewrite Hst; unfold lookup; simpl; apply lookup_insert_eq).
  assert (Ha : authRequired (fst (signup st s b)) s = true)
    by (unfold authRequired; by rewrite Hl).
  assert (Hg : adminRequired (fst (signup st s b)) s = false)
    by (unfold adminRequired, session_role; by rewrite Hl).
  split; [exact Ha|]. split; [exact Hg|]. split.
  - unfold upload. rewrite Ha. simpl.
    destruct (upload_single _ _ _ _); simpl; discriminate.
  - unfold list_uploads, promote. by rewrite Hg.
Qed.

Lemma signup_session_is_ordinary_witness :
  snd (signup (init ∅) 1 alice_body) = Json 200 BOk
  ∧ adminRequired alice_state 1 = false
  ∧ list_uploads alice_state 1 true = (alice_state, forbidden).
Proof.
  assert (H : snd (signup (init ∅) 1 alice_body) = Json 200 BOk)
    by reflexivity.
  split; [exact H|].
  destruct (signup_session_is_ordinary dir0 (init ∅) 1 alice_body t0 None
                                       true JUndefined H)
    as (_ & Hg & _ & Hl & _).
  split; [exact Hg | exact Hl].
Defined.

(** One request keeps every stored account: same password, and an
    administrator stays one. *)
Lemma handle_same_account
    (uploadsDir : jsstring) (st : state) (r : request)
    (k : jsstring) (rec : user_rec) :
  users st !! k = Some rec →
  ∃ rec', users (fst (handle uploadsDir st r)) !! k = Some rec'
          ∧ same_account rec rec'.
Proof.
  intros Hk.
  assert (Hsame : ∃ rec', users st !! k = Some rec' ∧ same_account rec rec')
    by (exists rec; by repeat split).
  destruct r as [s b|s b|s|s now part|s ok|s name|route s]; simpl.
  - unfold signup.
    destruct (negb (truthy (b_username b)) || negb (truthy (b_password b)));
      [exact Hsame|].
    destruct (key_throws (b_username b)); [exact Hsame|].
    destruct (users_get st (to_key (b_username b))) eqn:Hg; [exact Hsame|].
    apply Auth.users_get_None in Hg as [Hnone _]. simpl.
    rewrite lookup_insert_ne by congruence. exact Hsame.
  - unfold login. destruct (key_throws (b_username b)); [exact Hsame|].
    destruct (users_get st (to_key (b_username b)));
      [|exact Hsame]. destruct (negb _); exact Hsame.
  - exact Hsame.
  - unfold upload. destruct (negb (authRequired st s)); [exact Hsame|].
    unfold upload_single. destruct part as [f|]; [|exact Hsame].
    destruct (originalname f); [exact Hsame|].
    destruct (fileSize <=? size f); exact Hsame.
  - unfold list_uploads. destruct (negb (adminRequired st s));
      [exact Hsame|]. destruct (negb ok); exact Hsame.
  - destruct (Promotion.promote_state st s name) as [->|(u & _ & ->)];
      [exact Hsame|].
    destruct u; simpl; try exact Hsame.
    destruct (decide (k0 = k)) as [->|Hne].
    + rewrite lookup_alter_eq, Hk. simpl. eexists. split; [reflexivity|].
      by split.
    + rewrite lookup_alter_ne by done. exact Hsame.
  - rewrite Auth.no_body_unchanged. exact Hsame.
Qed.

Lemma run_same_account
    (uploadsDir : jsstring) (st : state) (rs : list request)
    (k : jsstring) (rec : user_rec) :
  users st !! k = Some rec →
  ∃ rec', users (run uploadsDir st rs) !! k = Some rec'
          ∧ same_account rec rec'.
Proof.
  revert st rec. induction rs as [|r rs IH]; intros st rec Hk; simpl.
  - exists rec. by repeat split.
  - destruct (handle_same_account uploadsDir st r k rec Hk)
      as (rec1 & Hk1 & Hp1 & Hr1).
    destruct (IH _ _ Hk1) as (rec2 & Hk2 & Hp2 & Hr2).
    exists rec2. split; [exact Hk2|]. split; [congruence | auto].
Qed.

(** X4.  Whatever requests are served, a stored account stays stored, its
    password never changes, and an administrator is never demoted. *)
Theorem accounts_are_kept
    (uploadsDir : jsstring) (st : state) (rs : list request)
    (k : jsstring) (rec : user_rec) :
  users st !! k = Some rec →
  ∃ rec', users (run uploadsDir st rs) !! k = Some rec'
          ∧ password rec' = password rec
          ∧ (role rec = RoleAdmin → role rec' = RoleAdmin).
Proof. apply run_same_account. Qed.

Lemma accounts_are_kept_witness :
  users (init ∅) !! admin_key = Some seeded_admin
  ∧ ∃ rec', users busy_state !! admin_key = Some rec'
            ∧ password rec' = password seeded_admin
            ∧ (role seeded_admin = RoleAdmin → role rec' = RoleAdmin).
Proof.
  assert (H : users (init ∅) !! admin_key = Some seeded_admin)
    by reflexivity.
  split; [exact H|].
  exact (accounts_are_kept dir0 (init ∅) busy_run admin_key seeded_admin H).
Defined.

(** X3.  In every reachable state the account created at start-up is
    still there with its start-up password: a login as [admin] with
    [adminpass] is answered 200 on any session, and that session passes the
    admin gate. *)
Theorem seeded_admin_can_always_login
    (uploadsDir : jsstring) (st : state) (s : sid) :
  reachable uploadsDir st →
  users st !! admin_key = Some seeded_admin
  ∧ snd (login st s admin_body) = Json 200 BOk
  ∧ lookup (fst (login st s admin_body)) s
    = Some (mkSessionUser (JStr admin_key) (Some RoleAdmin))
  ∧ adminRequired (fst (login st s admin_body)) s = true.
Proof.
  intros (dir & rs & ->).
  assert (H0 : users (init dir) !! admin_key = Some seeded_admin)
    by reflexivity.
  destruct (run_same_account uploadsDir (init dir) rs admin_key
                             seeded_admin H0) as (rec & Hk & Hp & Hr).
  assert (rec = seeded_admin) as ->.
  { destruct rec as [p ro]. simpl in *. rewrite Hp, (Hr eq_refl).
    reflexivity. }
  split; [exact Hk|].
  pose proof (Auth.login_stored _ s admin_body _ eq_refl Hk) as Hlogin.
  simpl in Hlogin. rewrite Hlogin.
  split; [reflexivity|]. split.
  - unfold lookup. simpl. apply lookup_insert_eq.
  - unfold adminRequired, lookup. simpl. by rewrite lookup_insert_eq.
Qed.

Lemma seeded_admin_can_always_login_witness :
  reachable dir0 busy_state
  ∧ snd (login busy_state 9 admin_body) = Json 200 BOk
  ∧ adminRequired (fst (login busy_state 9 admin_body)) 9 = true.
Proof.
  assert (H : reachable dir0 busy_state) by (by exists ∅, busy_run).
  split; [exact H|].
  destruct (seeded_admin_can_always_login dir0 busy_state 9 H)
    as (_ & H1 & _ & H2).
  split; [exact H1 | exact H2].
Defined.

End Accounts.

(* ===================================================================== *)
(** ** What one request can and cannot touch                             *)
(* ===================================================================== *)

Module Access.
Import JS Server Scenario Trace.

(** X5.  A request that is answered with a JSON error body (400, 401,
    403, 404, 409 or 500 from a route) leaves the whole state as it was:
    in particular a failed login or signup does not disturb the session it
    was sent on. *)
Theorem error_response_changes_nothing
    (uploadsDir : jsstring) (st : state) (r : request) :
  structured_error (snd (handle uploadsDir st r)) = true →
  fst (handle uploadsDir st r) = st.
Proof.
  destruct r as [s b|s b|s|s now part|s ok|s name|route s]; simpl.
  - unfold signup.
    destruct (negb (truthy (b_username b)) || negb (truthy (b_password b)));
      [done|].
    destruct (key_throws (b_username b)); [done|].
    destruct (users_get st (to_key (b_username b))); [done|discriminate].
  - unfold login. destruct (key_throws (b_username b)); [done|].
    destruct (users_get st (to_key (b_username b))); [|done].
    destruct (negb _); [done|discriminate].
  - discriminate.
  - unfold upload. destruct (negb (authRequired st s)); [done|].
    unfold upload_single. destruct part as [f|]; [|done].
    destruct (originalname f); [done|].
    destruct (fileSize <=? size f); discriminate.
  - unfold list_uploads. destruct (negb (adminRequired st s)); [done|].
    destruct (negb ok); done.
  - unfold promote. destruct (negb (adminRequired st s)); [done|].
    destruct (key_throws name); [done|].
    destruct (users_get st (to_key name)); [discriminate|done].
  - intros _. apply Auth.no_body_unchanged.
Qed.

(** A wrong password sent on alice's session leaves her logged in. *)
Lemma error_response_changes_nothing_witness :
  structured_error
    (snd (handle dir0 alice_state
                 (Login 1 (mkBody (JStr (u16 "admin")) (JStr (u16 "guess"))))))
  = true
  ∧ fst (handle dir0 alice_state
                (Login 1 (mkBody (JStr (u16 "admin")) (JStr (u16 "guess")))))
    = alice_state.
Proof.
  assert (H : structured_error
                (snd (handle dir0 alice_state
                   (Login 1 (mkBody (JStr (u16 "admin"))
                                    (JStr (u16 "guess")))))) = true)
    by reflexivity.
  split; [exact H|].
  exact (error_response_changes_nothing dir0 alice_state _ H).
Defined.

(** X6.  A request changes no session binding but the one it is served
    on. *)
Theorem other_sessions_untouched
    (uploadsDir : jsstring) (st : state) (r : request) (s' : sid) :
  s' ≠ request_sid r →
  lookup (fst (handle uploadsDir st r)) s' = lookup st s'.
Proof.
  intros Hne. unfold lookup.
  destruct r as [s b|s b|s|s now part|s ok|s name|route s]; simpl in *.
  - unfold signup.
    destruct (negb (truthy (b_username b)) || negb (truthy (b_password b)));
      [done|].
    destruct (key_throws (b_username b)); [done|].
    destruct (users_get st (to_key (b_username b))); [done|].
    simpl. by rewrite lookup_insert_ne.
  - unfold login. destruct (key_throws (b_username b)); [done|].
    destruct (users_get st (to_key (b_username b))); [|done].
    destruct (negb _); [done|]. simpl. by rewrite lookup_insert_ne.
  - by rewrite lookup_delete_ne.
  - unfold upload. destruct (negb (authRequired st s)); [done|].
    unfold upload_single. destruct part as [f|]; [|done].
    destruct (originalname f); [done|].
    destruct (fileSize <=? size f); done.
  - unfold list_uploads. destruct (negb (adminRequired st s)); [done|].
    destruct (negb ok); done.
  - destruct (Promotion.promote_state st s name) as [->|(u & _ & ->)];
      [done|].
    by destruct (Promotion.set_role_admin_frame st u) as [-> _].
  - by rewrite Auth.no_body_unchanged.
Qed.

(** The administrator's login on session [2] leaves alice's session. *)
Lemma other_sessions_untouched_witness :
  1 ≠ request_sid (Login 2 admin_body)
  ∧ lookup (fst (handle dir0 alice_state (Login 2 admin_body))) 1
    = lookup alice_state 1.
Proof.
  assert (H : 1 ≠ request_sid (Login 2 admin_body)) by discriminate.
  split; [exact H|].
  exact (other_sessions_untouched dir0 alice_state (Login 2 admin_body) 1 H).
Defined.

(** X7.  A request served on a session that does not pass the admin gate
    alters no stored account and no inherited object: the most it can do
    to the credential store is add an account under a new name. *)
Theorem non_admin_request_alters_no_account
    (uploadsDir : jsstring) (st : state) (r : request) :
  adminRequired st (request_sid r) = false →
  (∀ k rec, users st !! k = Some rec →
            users (fst (handle uploadsDir st r)) !! k = Some rec)
  ∧ builtin_admin (fst (handle uploadsDir st r)) = builtin_admin st
  ∧ proto_admin (fst (handle uploadsDir st r)) = proto_admin st.
Proof.
  intros Hg.
  destruct r as [s b|s b|s|s now part|s ok|s name|route s]; simpl in *.
  - unfold signup.
    destruct (negb (truthy (b_username b)) || negb (truthy (b_password b)));
      [done|].
    destruct (key_throws (b_username b)); [done|].
    destruct (users_get st (to_key (b_username b))) eqn:Hget; [done|].
    apply Auth.users_get_None in Hget as [Hnone _]. simpl.
    split; [|done]. intros k rec Hk.
    rewrite lookup_insert_ne by congruence. exact Hk.
  - unfold login. destruct (key_throws (b_username b)); [done|].
    destruct (users_get st (to_key (b_username b))); [|done].
    destruct (negb _); done.
  - done.
  - unfold upload. destruct (negb (authRequired st s)); [done|].
    unfold upload_single. destruct part as [f|]; [|done].
    destruct (originalname f); [done|].
    destruct (fileSize <=? size f); done.
  - unfold list_uploads. rewrite Hg. done.
  - unfold promote. rewrite Hg. done.
  - by rewrite Auth.no_body_unchanged.
Qed.

(** Alice, not an administrator, asks to be promoted. *)
Lemma non_admin_request_alters_no_account_witness :
  adminRequired alice_state (request_sid (Promote 1 (JStr (u16 "alice"))))
  = false
  ∧ users (fst (handle dir0 alice_state (Promote 1 (JStr (u16 "alice")))))
      !! u16 "alice"
    = Some (mkUser (JStr (u16 "pw1")) RoleUser).
Proof.
  assert (H : adminRequired alice_state
                (request_sid (Promote 1 (JStr (u16 "alice")))) = false)
    by reflexivity.
  split; [exact H|].
  refine (proj1 (non_admin_request_alters_no_account dir0 alice_state _ H)
                _ _ _).
  reflexivity.
Defined.

(** X8.  The uploads directory is changed by nothing but an upload with a
    file part: a request served on a session without a user leaves the
    directory as it was, and any request leaves every file as it was
    except, for an upload, the one under the name generated for it. *)
Theorem uploads_changed_only_by_upload
    (uploadsDir : jsstring) (st : state) (r : request) :
  (authRequired st (request_sid r) = false →
   uploads (fst (handle uploadsDir st r)) = uploads st)
  ∧ (∀ k, (∀ s now f, r = Upload s now (Some f) → k ≠ filename now f) →
          uploads (fst (handle uploadsDir st r)) !! k = uploads st !! k).
Proof.
  destruct r as [s b|s b|s|s now part|s ok|s name|route s]; simpl.
  - unfold signup.
    destruct (negb (truthy (b_username b)) || negb (truthy (b_password b)));
      [done|].
    destruct (key_throws (b_username b)); [done|].
    destruct (users_get st (to_key (b_username b))); done.
  - unfold login. destruct (key_throws (b_username b)); [done|].
    destruct (users_get st (to_key (b_username b))); [|done].
    destruct (negb _); done.
  - done.
  - unfold upload. destruct (authRequired st s); simpl; [|done].
    split; [discriminate|]. intros k Hk.
    unfold upload_single. destruct part as [f|]; [|done].
    specialize (Hk s now f eq_refl).
    destruct (originalname f); [done|].
    destruct (fileSize <=? size f); simpl.
    + by rewrite lookup_delete_ne.
    + by rewrite lookup_insert_ne.
  - unfold list_uploads. destruct (negb (adminRequired st s)); [done|].
    destruct (negb ok); done.
  - destruct (Promotion.promote_state st s name) as [->|(u & _ & ->)];
      [done|].
    by destruct (Promotion.set_role_admin_frame st u) as [_ ->].
  - by rewrite Auth.no_body_unchanged.
Qed.

(** An upload sent without a session stores nothing. *)
Lemma uploads_changed_only_by_upload_witness :
  authRequired (init ∅) (request_sid (Upload 4 t0 (Some clip))) = false
  ∧ uploads (fst (handle dir0 (init ∅) (Upload 4 t0 (Some clip))))
    = uploads (init ∅).
Proof.
  assert (H : authRequired (init ∅)
                (request_sid (Upload 4 t0 (Some clip))) = false)
    by reflexivity.
  split; [exact H|].
  exact (proj1 (uploads_changed_only_by_upload dir0 (init ∅)
                  (Upload 4 t0 (Some clip))) H).
Defined.

(** X11.  After a logout the session is refused everywhere: an upload on
    it is answered 401 and stores nothing, the upload list and promote are
    answered 403; the gates decide every other session as before. *)
Theorem logout_ends_access
    (uploadsDir : jsstring) (st : state) (s : sid)
    (now : N) (part : option upfile) (readdir_ok : bool) (name : jsval) :
  upload uploadsDir (fst (logout st s)) s now part
  = (fst (logout st s), unauthorized)
  ∧ list_uploads (fst (logout st s)) s readdir_ok
    = (fst (logout st s), forbidden)
  ∧ promote (fst (logout st s)) s name = (fst (logout st s), forbidden)
  ∧ (∀ s', s' ≠ s →
           authRequired (fst (logout st s)) s' = authRequired st s'
           ∧ adminRequired (fst (logout st s)) s' = adminRequired st s').
Proof.
  assert (Hl : lookup (fst (logout st s)) s = None)
    by (unfold lookup, logout; simpl; apply lookup_delete_eq).
  assert (Ha : authRequired (fst (logout st s)) s = false)
    by (unfold authRequired; by rewrite Hl).
  assert (Hg : adminRequired (fst (logout st s)) s = false)
    by (unfold adminRequired; by rewrite Hl).
  split; [unfold upload; by rewrite Ha|].
  split; [unfold list_uploads; by rewrite Hg|].
  split; [unfold promote; by rewrite Hg|].
  intros s' Hne.
  assert (Hl' : lookup (fst (logout st s)) s' = lookup st s')
    by (unfold lookup, logout; simpl; by apply lookup_delete_ne).
  unfold authRequired, adminRequired, session_role, inherited_role.
  rewrite Hl'. done.
Qed.

(** The administrator logs out; alice's session is as before. *)
Lemma logout_ends_access_witness :
  1 ≠ 2
  ∧ adminRequired alice_admin_state 2 = true
  ∧ adminRequired (fst (logout alice_admin_state 2)) 2 = false
  ∧ authRequired (fst (logout alice_admin_state 2)) 1
    = authRequired alice_admin_state 1.
Proof.
  assert (H : (1 : N) ≠ 2) by discriminate.
  split; [exact H|]. split; [reflexivity|]. split; [reflexivity|].
  exact (proj1 (proj2 (proj2 (proj2
           (logout_ends_access dir0 alice_admin_state 2 t0 None true
                               JUndefined))) 1 H)).
Defined.

End Access.

(* ===================================================================== *)
(** ** Where administrator rights come from                              *)
(* ===================================================================== *)

Module Roles.
Import JS Server Scenario Trace.

Lemma init_only_seeded_admin (dir : gmap jsstring N) :
  only_seeded_admin (init dir).
Proof.
  split; [reflexivity|]. split; [reflexivity|]. split.
  - intros k r Hk _. simpl in Hk.
    by apply lookup_singleton_Some in Hk as [<- _].
  - intros s u Hl. unfold lookup in Hl. simpl in Hl.
    by rewrite lookup_empty in Hl.
Qed.

(** Without pollution a role read through [users] is a stored one. *)
Lemma get_role_admin_stored (st : state) (k : jsstring) (u : target) :
  proto_admin st = false → builtin_admin st = ∅ →
  users_get st k = Some u → get_role st u = Some RoleAdmin →
  ∃ r, users st !! k = Some r ∧ role r = RoleAdmin.
Proof.
  intros Hp Hb Hg Hr. destruct u as [k'| k' | |]; simpl in Hr.
  - apply Promotion.users_get_TOwn in Hg as [-> [r Hk]].
    rewrite Hk in Hr. exists r. split; [exact Hk | congruence].
  - rewrite Hb in Hr. unfold inherited_role in Hr. rewrite Hp in Hr.
    rewrite bool_decide_eq_false_2 in Hr by set_solver. discriminate.
  - unfold inherited_role in Hr. rewrite Hp in Hr. discriminate.
  - unfold inherited_role in Hr. rewrite Hp in Hr. discriminate.
Qed.

Lemma handle_only_seeded_admin
    (uploadsDir : jsstring) (st : state) (r : request) :
  is_promote r = false →
  only_seeded_admin st → only_seeded_admin (fst (handle uploadsDir st r)).
Proof.
  intros Hnp (Hp & Hb & Hu & Hs).
  destruct r as [s b|s b|s|s now part|s ok|s name|route s]; simpl in *;
    try discriminate.
  - unfold signup.
    destruct (negb (truthy (b_username b)) || negb (truthy (b_password b)));
      [by repeat split|].
    destruct (key_throws (b_username b)); [by repeat split|].
    destruct (users_get st (to_key (b_username b))); [by repeat split|].
    split; [exact Hp|]. split; [exact Hb|]. split.
    + intros k r Hk Hr. simpl in Hk.
      destruct (decide (to_key (b_username b) = k)) as [<-|Hne].
      * rewrite lookup_insert_eq in Hk. injection Hk as <-. discriminate.
      * rewrite lookup_insert_ne in Hk by done. eauto.
    + intros s0 u Hl Hr. unfold lookup in Hl. simpl in Hl.
      destruct (decide (s = s0)) as [<-|Hne].
      * rewrite lookup_insert_eq in Hl. injection Hl as <-. discriminate.
      * rewrite lookup_insert_ne in Hl by done. eauto.
  - unfold login. destruct (key_throws (b_username b)); [by repeat split|].
    destruct (users_get st (to_key (b_username b))) as [u|] eqn:Hg;
      [|by repeat split].
    destruct (negb _); [by repeat split|].
    split; [exact Hp|]. split; [exact Hb|]. split; [exact Hu|].
    intros s0 u0 Hl Hr. unfold lookup in Hl. simpl in Hl.
    destruct (decide (s = s0)) as [<-|Hne].
    + rewrite lookup_insert_eq in Hl. injection Hl as <-. simpl in *.
      destruct (get_role_admin_stored st _ u Hp Hb Hg Hr) as (r & Hk & Hra).
      eauto.
    + rewrite lookup_insert_ne in Hl by done. eauto.
  - split; [exact Hp|]. split; [exact Hb|]. split; [exact Hu|].
    intros s0 u Hl Hr. unfold lookup in Hl. simpl in Hl.
    destruct (decide (s = s0)) as [<-|Hne].
    + by rewrite lookup_delete_eq in Hl.
    + rewrite lookup_delete_ne in Hl by done. eauto.
  - unfold upload. destruct (negb (authRequired st s)); [by repeat split|].
    unfold upload_single. destruct part as [f|]; [|by repeat split].
    destruct (originalname f); [by repeat split|].
    destruct (fileSize <=? size f); by repeat split.
  - unfold list_uploads. destruct (negb (adminRequired st s));
      [by repeat split|]. destruct (negb ok); by repeat split.
  - rewrite Auth.no_body_unchanged. by repeat split.
Qed.

Lemma run_only_seeded_admin
    (uploadsDir : jsstring) (st : state) (rs : list request) :
  forallb (fun r => negb (is_promote r)) rs = true →
  only_seeded_admin st → only_seeded_admin (run uploadsDir st rs).
Proof.
  revert st. induction rs as [|r rs IH]; intros st Hrs Hinv; simpl;
    [exact Hinv|].
  simpl in Hrs. apply andb_true_iff in Hrs as [Hr Hrs].
  apply IH; [exact Hrs|].
  apply handle_only_seeded_admin; [by apply negb_true_iff | exact Hinv].
Qed.

(** X9.  As long as no promote request has been served, the admin gate
    passes only a session that was logged in under the name [admin]: no
    signup, login, logout, upload or listing ever creates another
    administrator, whatever names and passwords are sent. *)
Theorem without_promote_only_admin_passes
    (uploadsDir : jsstring) (dir : gmap jsstring N) (rs : list request)
    (s : sid) :
  forallb (fun r => negb (is_promote r)) rs = true →
  adminRequired (run uploadsDir (init dir) rs) s = true →
  ∃ u, lookup (run uploadsDir (init dir) rs) s = Some u
       ∧ to_key (s_username u) = admin_key
       ∧ s_role u = Some RoleAdmin.
Proof.
  intros Hrs Hg.
  destruct (run_only_seeded_admin uploadsDir (init dir) rs Hrs
              (init_only_seeded_admin dir)) as (Hp & _ & _ & Hs).
  unfold adminRequired in Hg.
  destruct (lookup (run uploadsDir (init dir) rs) s) as [u|] eqn:Hl;
    [|discriminate].
  apply bool_decide_eq_true in Hg. unfold session_role, inherited_role in Hg.
  rewrite Hp in Hg.
  destruct (s_role u) as [ro|] eqn:Hr; [|discriminate].
  injection Hg as ->. exists u. split; [reflexivity|].
  split; [by apply (Hs s u) | exact Hr].
Qed.

Lemma without_promote_only_admin_passes_witness :
  forallb (fun r => negb (is_promote r)) quiet_run = true
  ∧ adminRequired quiet_state 2 = true
  ∧ ∃ u, lookup quiet_state 2 = Some u
         ∧ to_key (s_username u) = admin_key
         ∧ s_role u = Some RoleAdmin.
Proof.
  assert (H1 : forallb (fun r => negb (is_promote r)) quiet_run = true)
    by reflexivity.
  assert (H2 : adminRequired (run dir0 (init ∅) quiet_run) 2 = true)
    by reflexivity.
  split; [exact H1|]. split; [exact H2|].
  exact (without_promote_only_admin_passes dir0 ∅ quiet_run 2 H1 H2).
Defined.

(** A session that passes the admin gate still passes after a role was
    set somewhere. *)
Lemma adminRequired_set_role_admin (st : state) (s : sid) (u : target) :
  adminRequired st s = true → adminRequired (set_role_admin st u) s = true.
Proof.
  intros Hg. destruct u as [k|k| |]; simpl; [| | |exact Hg].
  - by rewrite (Promotion.adminRequired_ext st).
  - by rewrite (Promotion.adminRequired_ext st).
  - unfold adminRequired, lookup, session_role, inherited_role in *. simpl.
    destruct (sessions st !! s) as [su|]; [|discriminate].
    destruct (s_role su); [exact Hg | reflexivity].
Qed.

Lemma users_get_set_role_admin (st : state) (k : jsstring) (u : target) :
  users_get st k = Some u → users_get (set_role_admin st u) k = Some u.
Proof.
  intros Hg. destruct u as [k'|k'| |]; try exact Hg.
  - apply Promotion.users_get_TOwn in Hg as [-> [r Hk]].
    unfold users_get. simpl. by rewrite lookup_alter_eq, Hk.
  - unfold users_get in *. simpl.
    destruct (users st !! k); [discriminate|].
    destruct (bool_decide (k = proto_key)); [reflexivity|].
    destruct (bool_decide (k ∈ builtin_names)); [discriminate|].
    destruct (bool_decide (k = role_key) && proto_admin st); discriminate.
Qed.

Lemma set_role_admin_idem (st : state) (u : target) :
  set_role_admin (set_role_admin st u) u = set_role_admin st u.
Proof.
  destruct u as [k|k| |]; simpl; try reflexivity.
  - f_equal. apply map_eq. intros i.
    destruct (decide (k = i)) as [<-|Hne].
    + rewrite !lookup_alter_eq. by destruct (users st !! k).
    + by rewrite !lookup_alter_ne.
  - f_equal. apply set_eq. intros x. rewrite !elem_of_union. tauto.
Qed.

(** X10.  Promote is idempotent: sending the same promote request again
    on the same session gives the same response and leaves the state it
    produced the first time. *)
Theorem promote_idempotent (st : state) (s : sid) (name : jsval) :
  promote (fst (promote st s name)) s name
  = (fst (promote st s name), snd (promote st s name)).
Proof.
  unfold promote at 2 3 4.
  destruct (adminRequired st s) eqn:Hg; simpl.
  - destruct (key_throws name) eqn:Ht; simpl.
    { unfold promote. by rewrite Hg, Ht. }
    destruct (users_get st (to_key name)) as [u|] eqn:Hu; simpl.
    + unfold promote.
      rewrite (adminRequired_set_role_admin st s u Hg), Ht. simpl.
      rewrite (users_get_set_role_admin st _ u Hu).
      by rewrite set_role_admin_idem.
    + unfold promote. by rewrite Hg, Ht, Hu.
  - unfold promote. by rewrite Hg.
Qed.

End Roles.

(* ===================================================================== *)
(** ** The upload list and the stored names                              *)
(* ===================================================================== *)

Module Listing.
Import JS Server Scenario Trace.

Lemma readdir_elem (st : state) (name : jsstring) :
  name ∈ readdir st ↔ is_Some (uploads st !! name).
Proof.
  unfold readdir. change (map fst (map_to_list (uploads st)))
    with ((map_to_list (uploads st)).*1).
  rewrite list_elem_of_fmap. split.
  - intros ([k c] & -> & Hin). apply elem_of_map_to_list in Hin. eauto.
  - intros [c Hc]. exists (name, c). split; [reflexivity|].
    by apply elem_of_map_to_list.
Qed.

Lemma readdir_NoDup (st : state) : NoDup (readdir st).
Proof. apply NoDup_fst_map_to_list. Qed.

Lemma list_entry_inj (a b : jsstring) : list_entry a = list_entry b → a = b.
Proof. unfold list_entry. by intros [= _ ->]. Qed.

Lemma list_uploads_admin (st : state) (s : sid) :
  adminRequired st s = true →
  list_uploads st s true
  = (st, Json 200 (BOkUploads (list_entry <$> readdir st))).
Proof. intros Hg. unfold list_uploads. rewrite Hg. reflexivity. Qed.

(** What a successful upload did to the directory. *)
Lemma upload_ok_state
    (uploadsDir : jsstring) (st : state) (s : sid) (now : N) (f : upfile) :
  http_status (snd (upload uploadsDir st s now (Some f))) = 200 →
  fst (upload uploadsDir st s now (Some f))
  = set_uploads st (<[ filename now f := content f ]> (uploads st)).
Proof.
  unfold upload, upload_single.
  destruct (negb (authRequired st s)); [discriminate|].
  destruct (originalname f); [discriminate|].
  destruct (fileSize <=? size f); [discriminate|done].
Qed.

(** X12.  For a session that passes the admin gate the upload list holds
    one entry [{ file: '/uploads/' + name, name }] for each file of the
    uploads directory and nothing else, no entry twice; it changes no
    state; and when reading the directory fails the answer is 500
    [read failed]. *)
Theorem list_uploads_complete (st : state) (s : sid) :
  adminRequired st s = true →
  list_uploads st s false = (st, Json 500 (BError (u16 "read failed")))
  ∧ ∃ l, list_uploads st s true = (st, Json 200 (BOkUploads l))
         ∧ NoDup l
         ∧ ∀ e, e ∈ l ↔ ∃ name, e = list_entry name
                                ∧ is_Some (uploads st !! name).
Proof.
  intros Hg. split; [unfold list_uploads; by rewrite Hg|].
  exists (list_entry <$> readdir st).
  split; [by apply list_uploads_admin|]. split.
  - apply NoDup_fmap_2; [|apply readdir_NoDup].
    intros a b. apply list_entry_inj.
  - intros e. rewrite list_elem_of_fmap.
    split; intros (name & -> & H); exists name; (split; [reflexivity|]);
      by apply readdir_elem.
Qed.

Lemma list_uploads_complete_witness :
  adminRequired quiet_state 2 = true
  ∧ list_uploads quiet_state 2 false
    = (quiet_state, Json 500 (BError (u16 "read failed")))
  ∧ ∃ l, list_uploads quiet_state 2 true
         = (quiet_state, Json 200 (BOkUploads l))
         ∧ NoDup l.
Proof.
  assert (H : adminRequired quiet_state 2 = true) by reflexivity.
  split; [exact H|].
  destruct (list_uploads_complete quiet_state 2 H) as (H500 & l & Hl & Hn & _).
  split; [exact H500|]. exists l. split; [exact Hl | exact Hn].
Defined.

(** A request that does not generate a name leaves the file of that
    name as it is. *)
Lemma handle_keeps_file
    (uploadsDir : jsstring) (st : state) (r : request) (name : jsstring) :
  generates name r = false →
  uploads (fst (handle uploadsDir st r)) !! name = uploads st !! name.
Proof.
  intros Hgen.
  destruct r as [s b|s b|s|s now part|s ok|s nm|route s]; simpl in *.
  - unfold signup.
    destruct (negb (truthy (b_username b)) || negb (truthy (b_password b)));
      [done|].
    destruct (key_throws (b_username b)); [done|].
    destruct (users_get st (to_key (b_username b))); done.
  - unfold login. destruct (key_throws (b_username b)); [done|].
    destruct (users_get st (to_key (b_username b))); [|done].
    destruct (negb _); done.
  - done.
  - unfold upload. destruct (negb (authRequired st s)); [done|].
    unfold upload_single. destruct part as [f|]; [|done].
    apply bool_decide_eq_false in Hgen.
    destruct (originalname f); [done|].
    destruct (fileSize <=? size f); simpl.
    + by rewrite lookup_delete_ne.
    + by rewrite lookup_insert_ne.
  - unfold list_uploads. destruct (negb (adminRequired st s)); [done|].
    destruct (negb ok); done.
  - destruct (Promotion.promote_state st s nm) as [->|(u & _ & ->)];
      [done|].
    by destruct (Promotion.set_role_admin_frame st u) as [_ ->].
  - by rewrite Auth.no_body_unchanged.
Qed.

Lemma run_keeps_file
    (uploadsDir : jsstring) (st : state) (rs : list request)
    (name : jsstring) :
  forallb (fun r => negb (generates name r)) rs = true →
  uploads (run uploadsDir st rs) !! name = uploads st !! name.
Proof.
  revert st. induction rs as [|r rs IH]; intros st Hrs; simpl; [done|].
  simpl in Hrs. apply andb_true_iff in Hrs as [Hr Hrs].
  rewrite (IH _ Hrs). apply handle_keeps_file. by apply negb_true_iff.
Qed.

(** X13.  A file whose upload was answered 200 stays in the uploads
    directory with its content, and in the upload list of every session
    that passes the admin gate, through any later requests among which no
    upload generates the same file name. *)
Theorem uploaded_file_is_listed
    (uploadsDir : jsstring) (st : state) (s s' : sid) (now : N)
    (f : upfile) (rs : list request) :
  http_status (snd (upload uploadsDir st s now (Some f))) = 200 →
  forallb (fun r => negb (generates (filename now f) r)) rs = true →
  uploads (run uploadsDir (fst (upload uploadsDir st s now (Some f))) rs)
    !! filename now f = Some (content f)
  ∧ (adminRequired
       (run uploadsDir (fst (upload uploadsDir st s now (Some f))) rs) s'
     = true →
     ∃ l, snd (list_uploads
                 (run uploadsDir (fst (upload uploadsDir st s now (Some f)))
                      rs) s' true)
          = Json 200 (BOkUploads l)
          ∧ list_entry (filename now f) ∈ l).
Proof.
  intros Hok Hrs.
  assert (Hfile : uploads (run uploadsDir
                    (fst (upload uploadsDir st s now (Some f))) rs)
                    !! filename now f = Some (content f)).
  { rewrite (run_keeps_file _ _ _ _ Hrs), (upload_ok_state _ _ _ _ _ Hok).
    simpl. apply lookup_insert_eq. }
  split; [exact Hfile|]. intros Hg.
  eexists. rewrite (list_uploads_admin _ _ Hg). split; [reflexivity|].
  apply list_elem_of_fmap. eexists. split; [reflexivity|].
  apply readdir_elem. rewrite Hfile. eauto.
Qed.

(** Alice uploads a clip; the administrator logs in, promotes her and
    lists the uploads. *)
Lemma uploaded_file_is_listed_witness :
  http_status (snd (upload dir0 alice_state 1 t0 (Some clip))) = 200
  ∧ forallb (fun r => negb (generates (filename t0 clip) r)) after_clip
    = true
  ∧ uploads (run dir0 (fst (upload dir0 alice_state 1 t0 (Some clip)))
                 after_clip) !! filename t0 clip = Some (content clip)
  ∧ adminRequired
      (run dir0 (fst (upload dir0 alice_state 1 t0 (Some clip))) after_clip)
      2 = true
  ∧ ∃ l, snd (list_uploads
                (run dir0 (fst (upload dir0 alice_state 1 t0 (Some clip)))
                     after_clip) 2 true)
         = Json 200 (BOkUploads l)
         ∧ list_entry (filename t0 clip) ∈ l.
Proof.
  assert (H1 : http_status (snd (upload dir0 alice_state 1 t0 (Some clip)))
               = 200) by reflexivity.
  assert (H2 : forallb (fun r => negb (generates (filename t0 clip) r))
                       after_clip = true) by reflexivity.
  assert (H3 : adminRequired
                 (run dir0 (fst (upload dir0 alice_state 1 t0 (Some clip)))
                      after_clip) 2 = true) by reflexivity.
  destruct (uploaded_file_is_listed dir0 alice_state 1 2 t0 clip after_clip
                                    H1 H2) as [Hfile Hlist].
  split; [exact H1|]. split; [exact H2|]. split; [exact Hfile|].
  split; [exact H3 | exact (Hlist H3)].
Defined.

(** Digits and the hyphen are not whitespace. *)
Lemma digit_not_space (c : N) : 48 <= c <= 57 → is_space c = false.
Proof.
  intros Hc. unfold is_space.
  replace (c <=? 13) with false by (symmetry; apply N.leb_gt; lia).
  replace (c =? 32) with false by (symmetry; apply N.eqb_neq; lia).
  replace (c =? 160) with false by (symmetry; apply N.eqb_neq; lia).
  replace (c =? 5760) with false by (symmetry; apply N.eqb_neq; lia).
  replace (8192 <=? c) with false by (symmetry; apply N.leb_gt; lia).
  replace (c =? 8232) with false by (symmetry; apply N.eqb_neq; lia).
  replace (c =? 8233) with false by (symmetry; apply N.eqb_neq; lia).
  replace (c =? 8239) with false by (symmetry; apply N.eqb_neq; lia).
  replace (c =? 8287) with false by (symmetry; apply N.eqb_neq; lia).
  replace (c =? 12288) with false by (symmetry; apply N.eqb_neq; lia).
  replace (c =? 65279) with false by (symmetry; apply N.eqb_neq; lia).
  by rewrite andb_false_r.
Qed.

Lemma replace_ws_from_id (b : bool) (s : jsstring) :
  Forall (fun c => is_space c = false) s → replace_ws_from b s = s.
Proof.
  revert b. induction s as [|c t IH]; intros b Hs; [reflexivity|].
  inversion Hs as [|? ? Hc Ht]; subst. simpl. rewrite Hc.
  by rewrite IH.
Qed.

(** X14.  A generated file name never contains a whitespace code unit;
    an original name without whitespace is kept verbatim behind the clock
    reading and the hyphen; and applying the replacement to its own result
    changes nothing. *)
Theorem filename_has_no_whitespace (now : N) (f : upfile) :
  Forall (fun c => is_space c = false) (filename now f)
  ∧ (Forall (fun c => is_space c = false) (originalname f) →
     filename now f = number_to_string now ++ hyphen :: originalname f)
  ∧ replace_ws (replace_ws (originalname f)) = replace_ws (originalname f).
Proof.
  split; [|split].
  - unfold filename. apply Forall_app. split.
    + eapply Forall_impl; [apply JSFacts.uint_digits_range|].
      intros c Hc. by apply digit_not_space.
    + constructor; [reflexivity|]. apply JSFacts.replace_ws_from_no_space.
  - intros Hs. unfold filename, replace_ws. by rewrite replace_ws_from_id.
  - unfold replace_ws at 1. apply replace_ws_from_id.
    apply JSFacts.replace_ws_from_no_space.
Qed.

Lemma filename_has_no_whitespace_witness :
  Forall (fun c => is_space c = false) (originalname huge)
  ∧ filename t0 huge = u16 "1700000000000-clip.mp4".
Proof.
  assert (H : Forall (fun c => is_space c = false) (originalname huge))
    by (repeat constructor).
  split; [exact H|].
  exact (proj1 (proj2 (filename_has_no_whitespace t0 huge)) H).
Defined.

(** X15.  Two generated file names are equal exactly when the two clock
    readings are equal and the two original names are equal after the
    whitespace replacement. *)
Theorem filename_equal_iff (now now' : N) (f f' : upfile) :
  filename now f = filename now' f'
  ↔ now = now'
    ∧ collapse_whitespace (originalname f)
      = collapse_whitespace (originalname f').
Proof.
  rewrite Uploads.filename_eq_iff.
  by rewrite !JSFacts.replace_ws_collapse.
Qed.

Lemma other_clock_not_generates (now : N) (f : upfile) (r : request) :
  other_clock now r = true → generates (filename now f) r = false.
Proof.
  destruct r as [| | |s now' [f'|]| | |]; simpl; try done.
  intros H. apply negb_true_iff, N.eqb_neq in H.
  apply bool_decide_eq_false_2.
  by apply Uploads.filename_distinct_clock.
Qed.

(** X16.  Two uploads that were answered 200 with names generated at
    different clock readings are stored under different names, and after
    the second both files are in the directory, each with its own
    content, whatever requests were served in between, as long as none of
    them was an upload served at the first clock reading. *)
Theorem distinct_clock_uploads_coexist
    (uploadsDir : jsstring) (st : state) (s s' : sid) (now now' : N)
    (f f' : upfile) (rs : list request) :
  now ≠ now' →
  forallb (other_clock now) rs = true →
  http_status (snd (upload uploadsDir st s now (Some f))) = 200 →
  http_status
    (snd (upload uploadsDir
            (run uploadsDir (fst (upload uploadsDir st s now (Some f))) rs)
            s' now' (Some f'))) = 200 →
  filename now f ≠ filename now' f'
  ∧ uploads (fst (upload uploadsDir
                    (run uploadsDir
                         (fst (upload uploadsDir st s now (Some f))) rs)
                    s' now' (Some f')))
      !! filename now f = Some (content f)
  ∧ uploads (fst (upload uploadsDir
                    (run uploadsDir
                         (fst (upload uploadsDir st s now (Some f))) rs)
                    s' now' (Some f')))
      !! filename now' f' = Some (content f').
Proof.
  intros Hne Hrs H1 H2.
  pose proof (Uploads.filename_distinct_clock now now' f f' Hne) as Hd.
  rewrite (upload_ok_state _ _ _ _ _ H2). simpl.
  split; [exact Hd|]. split; [|apply lookup_insert_eq].
  rewrite lookup_insert_ne by done.
  rewrite run_keeps_file, (upload_ok_state _ _ _ _ _ H1).
  - simpl. apply lookup_insert_eq.
  - clear -Hrs. induction rs as [|r rs IH]; [reflexivity|].
    simpl in *. apply andb_true_iff in Hrs as [Hr Hrs].
    rewrite (other_clock_not_generates _ _ _ Hr). simpl. by apply IH.
Qed.

(** Alice uploads a clip, the administrator logs in and promotes her, and
    a millisecond after the first upload she uploads the other clip. *)
Lemma distinct_clock_uploads_coexist_witness :
  t0 ≠ t0 + 1
  ∧ forallb (other_clock t0) after_clip = true
  ∧ uploads (fst (upload dir0 (run dir0 (fst first_upload) after_clip)
                         1 (t0 + 1) (Some clip_again)))
      !! filename t0 clip = Some (content clip)
  ∧ uploads (fst (upload dir0 (run dir0 (fst first_upload) after_clip)
                         1 (t0 + 1) (Some clip_again)))
      !! filename (t0 + 1) clip_again = Some (content clip_again).
Proof.
  assert (H : t0 ≠ t0 + 1) by discriminate.
  assert (Hrs : forallb (other_clock t0) after_clip = true) by reflexivity.
  split; [exact H|]. split; [exact Hrs|].
  refine (proj2 (distinct_clock_uploads_coexist dir0 alice_state 1 1
                   t0 (t0 + 1) clip clip_again after_clip H Hrs _ _));
    reflexivity.
Defined.

End Listing.

(* ===================================================================== *)
(** ** Names that are not inherited                                      *)
(* ===================================================================== *)

Module Ordinary.
Import JS Server Scenario Trace.







(** X23.  A username whose conversion to a property key throws, such as
    [{ toString: 1 }], and a request without a parsed body (where the
    framework leaves [req.body] undefined) make the handler throw: login,
    signup with a truthy password, and promote behind the admin gate are
    answered with status 500 by the default error handler, not with a JSON
    body, and change nothing; promote without an administrator session is
    still answered 403. *)
Theorem throwing_key_is_500
    (st : state) (s : sid) (name p : jsval) (route : body_route) :
  key_throws name = true →
  login st s (mkBody name p) = (st, Thrown)
  ∧ (truthy p = true → signup st s (mkBody name p) = (st, Thrown))
  ∧ (adminRequired st s = true →
     promote st s name = (st, Thrown)
     ∧ no_body st RPromote s = (st, Thrown))
  ∧ (adminRequired st s = false →
     promote st s name = (st, forbidden)
     ∧ no_body st RPromote s = (st, forbidden))
  ∧ no_body st RSignup s = (st, Thrown)
  ∧ no_body st RLogin s = (st, Thrown)
  ∧ http_status Thrown = 500
  ∧ structured_error Thrown = false.
Proof.
  intros Ht.
  assert (Hv : truthy name = true).
  { destruct name as [| |[]| | |[k|]]; simpl in *; try discriminate.
    reflexivity. }
  split; [unfold login; simpl; by rewrite Ht|].
  split; [intros Hp; unfold signup; simpl; by rewrite Hv, Hp, Ht|].
  split; [intros Hg; unfold promote, no_body; by rewrite Hg, Ht|].
  split; [intros Hg; unfold promote, no_body; by rewrite Hg|].
  repeat split.
Qed.

Lemma throwing_key_is_500_witness :
  key_throws throwing_name = true
  ∧ login alice_state 1 (mkBody throwing_name JUndefined)
    = (alice_state, Thrown)
  ∧ adminRequired alice_state 1 = false
  ∧ promote alice_state 1 throwing_name = (alice_state, forbidden).
Proof.
  assert (H : key_throws throwing_name = true) by reflexivity.
  assert (Hg : adminRequired alice_state 1 = false) by reflexivity.
  pose proof (throwing_key_is_500 alice_state 1 throwing_name JUndefined
                                  RLogin H) as (H1 & _ & _ & H2 & _).
  split; [exact H|]. split; [exact H1|]. split; [exact Hg|].
  exact (proj1 (H2 Hg)).
Defined.

(** X20.  A name that a signup registered is taken for good: whatever
    requests are served afterwards, a later signup under that name with
    any non-empty password is answered 409 [exists] and changes nothing. *)
Theorem registered_name_stays_taken
    (uploadsDir : jsstring) (st : state) (s s' : sid) (b : body)
    (rs : list request) (p : jsval) :
  snd (signup st s b) = Json 200 BOk →
  truthy p = true →
  signup (run uploadsDir (fst (signup st s b)) rs) s'
         (mkBody (b_username b) p)
  = (run uploadsDir (fst (signup st s b)) rs,
     Json 409 (BError (u16 "exists"))).
Proof.
  intros Hok Hp.
  destruct (Accounts.signup_ok_inv st s b Hok) as [_ Hst].
  assert (Hu : truthy (b_username b) = true).
  { unfold signup in Hok. destruct (truthy (b_username b)); [done|].
    discriminate. }
  assert (Hk : users (fst (signup st s b)) !! to_key (b_username b)
               = Some (mkUser (b_password b) RoleUser))
    by (rewrite Hst; simpl; apply lookup_insert_eq).
  destruct (Accounts.run_same_account uploadsDir _ rs _ _ Hk)
    as (rec & Hk' & _).
  destruct (Accounts.signup_ok_key st s b Hok) as [_ Ht].
  by apply (Auth.signup_exists _ s' (mkBody (b_username b) p) rec).
Qed.

Lemma registered_name_stays_taken_witness :
  snd (signup (init ∅) 1 alice_body) = Json 200 BOk
  ∧ truthy (JStr (u16 "other")) = true
  ∧ snd (signup (run dir0 alice_state [Logout 1]) 8
                (mkBody (JStr (u16 "alice")) (JStr (u16 "other"))))
    = Json 409 (BError (u16 "exists")).
Proof.
  assert (H1 : snd (signup (init ∅) 1 alice_body) = Json 200 BOk)
    by reflexivity.
  assert (H2 : truthy (JStr (u16 "other")) = true) by reflexivity.
  split; [exact H1|]. split; [exact H2|].
  exact (f_equal snd
           (registered_name_stays_taken dir0 (init ∅) 1 8 alice_body
                                        [Logout 1] _ H1 H2)).
Defined.

End Ordinary.

(* ===================================================================== *)
(** ** The invariants at work                                            *)
(* ===================================================================== *)

Module Invariants.
Import JS Server Scenario Trace.


Lemma reachable_own_keys_plain_witness :
  reachable dir0 quiet_state
  ∧ is_Some (users quiet_state !! u16 "alice")
  ∧ u16 "alice" ≠ proto_key ∧ u16 "alice" ∉ builtin_names.
Proof.
  assert (H : reachable dir0 quiet_state) by (by exists ∅, quiet_run).
  assert (Hk : is_Some (users quiet_state !! u16 "alice"))
    by (eexists; reflexivity).
  split; [exact H|]. split; [exact Hk|].
  exact (Reach.reachable_own_keys_plain dir0 quiet_state H (u16 "alice") Hk).
Defined.

End Invariants.
